(** * Agentic Mesh Simulation: a model of [src/App.tsx]

    The component keeps five agent icons and a short log in React state,
    asks a remote text service for a three-role plan, and then plays a
    scripted timeline with five [setTimeout] callbacks.  This file embeds
    the logic of the component (everything above its [return (<div ...)])
    and states the properties of the specification over that embedding.

    Conventions.
    - A state setter applies to the store at once.  React queues the update
      and applies the queue, in order, when it renders; every handler below
      reads state only through functional updaters or before its first
      write, so both give the same store.  An updater that throws is
      recorded as the calling handler throwing at that statement; React
      runs the updater in the next render, which then throws.
    - [step] gives the store after an event.  A render that throws unmounts
      the component: [renders] tells whether the render returns, [crashes]
      whether an event ends in such a render, and [live] whether the
      component survives a trace.
    - Values typed [any] in the source (what [JSON.parse] returns, and every
      field copied out of it) are [JValue]s.
    - Event handlers and timer callbacks run to completion; an uncaught
      exception ends the handler, keeps the writes made so far, and the
      event loop goes on. *)

From Stdlib Require Import ZArith Ascii PrimFloat Uint63 DecimalString.
From stdpp Require Import base option list strings.

Local Open Scope Z_scope.

(** ** JavaScript values *)

(** The values [JSON.parse] can return, and [undefined]. *)
#[local] Set Warnings "-register-all".
Inductive JValue : Type :=
| JUndefined
| JNull
| JBool (b : bool)
| JNum (n : float)
| JStr (s : string)
| JArr (xs : list JValue)
| JObj (fields : list (string * JValue)).

(** The decimal spelling of an array index. *)
Definition index_key (i : nat) : string :=
  NilZero.string_of_uint (Nat.to_uint i).

(** The index below [len] whose spelling is [k], if any. *)
Definition own_index (len : nat) (k : string) : option nat :=
  List.find (fun i => String.eqb (index_key i) k) (seq 0 len).

(** The own property [k] of an object literal: the first binding of [k]. *)
Fixpoint own_property (fields : list (string * JValue)) (k : string) : option JValue :=
  match fields with
  | [] => None
  | (k', v) :: rest => if String.eqb k' k then Some v else own_property rest k
  end.

(** [v[k]] and [v.k]: [None] is the TypeError of reading a property of
    [undefined] or [null].  A missing property reads as [undefined].  The
    program reads the keys candidates, content, parts, text, agents, name,
    specialty, task, 0, 1 and 2 only; none of them is a built-in property of
    an object, array, string, number or boolean, so built-in properties are
    left out. *)
Definition Get (v : JValue) (k : string) : option JValue :=
  match v with
  | JUndefined | JNull => None
  | JBool _ | JNum _ => Some JUndefined
  | JStr s =>
      Some (match own_index (String.length s) k with
            | Some i => match String.get i s with
                        | Some c => JStr (String c EmptyString)
                        | None => JUndefined
                        end
            | None => JUndefined
            end)
  | JArr xs =>
      Some (match own_index (length xs) k with
            | Some i => nth i xs JUndefined
            | None => JUndefined
            end)
  | JObj fields => Some (default JUndefined (own_property fields k))
  end.

(** ToBoolean, as [if (v)] applies it. *)
Definition truthy (v : JValue) : bool :=
  match v with
  | JUndefined | JNull => false
  | JBool b => b
  | JNum n => negb (PrimFloat.is_zero n || PrimFloat.is_nan n)
  | JStr s => negb (String.eqb s EmptyString)
  | JArr _ | JObj _ => true
  end.

(** ** Types of the component *)

Inductive AgentType := Orchestrator | Specialist | Worker.
Inductive AgentStatus := idle | working | communicating | success.

(** [interface Agent].  The fields carry a prefix because [id] is also a
    field of [LogEntry].  [name], [specialty] and [currentTask] are written
    from the plan, which is untyped. *)
Record Agent := mkAgent {
  a_id : string;
  a_name : JValue;
  a_type : AgentType;
  a_x : Z;
  a_y : Z;
  a_status : AgentStatus;
  a_specialty : JValue;
  a_currentTask : JValue
}.

(** One position of the [agents] array.  The state is typed [Agent[]],
    and an agent record is [Full]; the other three are what JavaScript
    leaves in an array that is written past its end:
    - [Bare] is an object spread from [undefined], which has no id, type, x
      or y: [{...undefined, name, specialty, currentTask}] has the three
      fields of a role, [{...undefined, status}] has a status;
    - [Undef] is an element that is [undefined];
    - [Hole] is a missing element of a sparse array. *)
Inductive Slot :=
| Full (a : Agent)
| Bare (role : option (JValue * JValue * JValue)) (status : option AgentStatus)
| Undef
| Hole.

(** [interface LogEntry].  [source] is written from the plan as well. *)
Record LogEntry := mkLog {
  l_id : float;
  l_source : JValue;
  l_message : string;
  l_timestamp : string
}.

(** ** The state of the component and of its runtime *)

(** The five callbacks [startSimulation] hands to [setTimeout], named by the
    comments that introduce them; three of them close over the plan. *)
Inductive TimerCallback :=
| Step1 (orchestratorPlan : JValue)   (* Orchestration Display *)
| Step2 (orchestratorPlan : JValue)   (* Discovery *)
| Step3                               (* Distribution *)
| Step4 (orchestratorPlan : JValue)   (* Execution *)
| Step5.                              (* Completion *)

(** The [useState] cells of [AgenticMeshSimulation] ([selectedAgent], which
    only opens the details dialog, is left out), and what the runtime holds
    for the component: the clock, the number of [Math.random()] calls made,
    the pending timers (earliest first) and the two kinds of remote call in
    flight, each with its argument. *)
Record World := mkWorld {
  agents : list Slot;
  logs : list LogEntry;
  simulationStep : nat;
  isSimulating : bool;
  userMission : string;
  isOrchestrating : bool;
  missionReport : JValue;
  isGeneratingReport : bool;
  now : Z;
  randoms : nat;
  timers : list (Z * TimerCallback);
  planCalls : list string;
  summaryCalls : list (list LogEntry)
}.

Definition with_agents (v : list Slot) (w : World) : World :=
  mkWorld v (logs w) (simulationStep w) (isSimulating w) (userMission w)
    (isOrchestrating w) (missionReport w) (isGeneratingReport w) (now w)
    (randoms w) (timers w) (planCalls w) (summaryCalls w).
Definition with_logs (v : list LogEntry) (w : World) : World :=
  mkWorld (agents w) v (simulationStep w) (isSimulating w) (userMission w)
    (isOrchestrating w) (missionReport w) (isGeneratingReport w) (now w)
    (randoms w) (timers w) (planCalls w) (summaryCalls w).
Definition with_simulationStep (v : nat) (w : World) : World :=
  mkWorld (agents w) (logs w) v (isSimulating w) (userMission w)
    (isOrchestrating w) (missionReport w) (isGeneratingReport w) (now w)
    (randoms w) (timers w) (planCalls w) (summaryCalls w).
Definition with_isSimulating (v : bool) (w : World) : World :=
  mkWorld (agents w) (logs w) (simulationStep w) v (userMission w)
    (isOrchestrating w) (missionReport w) (isGeneratingReport w) (now w)
    (randoms w) (timers w) (planCalls w) (summaryCalls w).
Definition with_userMission (v : string) (w : World) : World :=
  mkWorld (agents w) (logs w) (simulationStep w) (isSimulating w) v
    (isOrchestrating w) (missionReport w) (isGeneratingReport w) (now w)
    (randoms w) (timers w) (planCalls w) (summaryCalls w).
Definition with_isOrchestrating (v : bool) (w : World) : World :=
  mkWorld (agents w) (logs w) (simulationStep w) (isSimulating w) (userMission w)
    v (missionReport w) (isGeneratingReport w) (now w)
    (randoms w) (timers w) (planCalls w) (summaryCalls w).
Definition with_missionReport (v : JValue) (w : World) : World :=
  mkWorld (agents w) (logs w) (simulationStep w) (isSimulating w) (userMission w)
    (isOrchestrating w) v (isGeneratingReport w) (now w)
    (randoms w) (timers w) (planCalls w) (summaryCalls w).
Definition with_isGeneratingReport (v : bool) (w : World) : World :=
  mkWorld (agents w) (logs w) (simulationStep w) (isSimulating w) (userMission w)
    (isOrchestrating w) (missionReport w) v (now w)
    (randoms w) (timers w) (planCalls w) (summaryCalls w).
Definition with_now (v : Z) (w : World) : World :=
  mkWorld (agents w) (logs w) (simulationStep w) (isSimulating w) (userMission w)
    (isOrchestrating w) (missionReport w) (isGeneratingReport w) v
    (randoms w) (timers w) (planCalls w) (summaryCalls w).
Definition with_randoms (v : nat) (w : World) : World :=
  mkWorld (agents w) (logs w) (simulationStep w) (isSimulating w) (userMission w)
    (isOrchestrating w) (missionReport w) (isGeneratingReport w) (now w)
    v (timers w) (planCalls w) (summaryCalls w).
Definition with_timers (v : list (Z * TimerCallback)) (w : World) : World :=
  mkWorld (agents w) (logs w) (simulationStep w) (isSimulating w) (userMission w)
    (isOrchestrating w) (missionReport w) (isGeneratingReport w) (now w)
    (randoms w) v (planCalls w) (summaryCalls w).
Definition with_planCalls (v : list string) (w : World) : World :=
  mkWorld (agents w) (logs w) (simulationStep w) (isSimulating w) (userMission w)
    (isOrchestrating w) (missionReport w) (isGeneratingReport w) (now w)
    (randoms w) (timers w) v (summaryCalls w).
Definition with_summaryCalls (v : list (list LogEntry)) (w : World) : World :=
  mkWorld (agents w) (logs w) (simulationStep w) (isSimulating w) (userMission w)
    (isOrchestrating w) (missionReport w) (isGeneratingReport w) (now w)
    (randoms w) (timers w) (planCalls w) v.

(** A handler is a run of statements over the world that ends normally
    ([Some]) or by an exception ([None]); the writes made before the
    exception stay. *)
Definition Handler (A : Type) : Type := World -> World * option A.

Definition hret {A} (a : A) : Handler A := fun w => (w, Some a).

Definition hbind {A B} (c : Handler A) (k : A -> Handler B) : Handler B :=
  fun w => match c w with
           | (w', Some a) => k a w'
           | (w', None) => (w', None)
           end.

(** The value of an expression that may throw. *)
Definition eval {A} (o : option A) : Handler A := fun w => (w, o).

(** A write to the world. *)
Definition write (f : World -> World) : Handler unit := fun w => (f w, Some tt).

Declare Scope handler_scope.
Delimit Scope handler_scope with handler.
Bind Scope handler_scope with Handler.
Notation "c1 ;; c2" := (hbind c1 (fun _ => c2))
  (at level 100, c2 at level 200, right associativity) : handler_scope.
Notation "x <~ c1 ;; c2" := (hbind c1 (fun x => c2))
  (at level 100, c1 at next level, c2 at level 200, right associativity) : handler_scope.

(** ** The remote providers *)

(** What one [fetch] and the [response.json()] after it can come to: the
    request is rejected, or a response arrives with its [ok] flag and a
    body that is JSON ([Some]) or not ([None], [response.json()] rejects).
    The prompt is sent to the service and has no other use, so the model
    leaves the response to the environment. *)
Inductive FetchOutcome :=
| NetworkError
| Response (ok : bool) (body : option JValue).

Definition planRecord (name specialty task : string) : JValue :=
  JObj [("name"%string, JStr name); ("specialty"%string, JStr specialty);
        ("task"%string, JStr task)].

(** The object of the [catch] branch of [callGeminiOrchestrator]. *)
Definition fallbackPlan : JValue :=
  JObj [("agents"%string,
         JArr [planRecord "Logic Bot" "Planning" "Analyzing requirements";
               planRecord "Resource Bot" "Logistics" "Gathering resources";
               planRecord "Review Bot" "Quality Control" "Verifying output"])].

(** The string of the [catch] branch of [callGeminiSummary]. *)
Definition fallbackSummary : string :=
  "Mission completed successfully. Agents collaborated to fulfill the user request.".

(** [data.candidates[0].content.parts[0].text] *)
Definition responseText (data : JValue) : option JValue :=
  c ← Get data "candidates";
  c0 ← Get c "0";
  content ← Get c0 "content";
  parts ← Get content "parts";
  p0 ← Get parts "0";
  Get p0 "text".

(** What the component takes from the runtime it is loaded in:
    - [apiKey]: [import.meta.env.VITE_GEMINI_API_KEY], or the empty string;
    - [JSON_parse]: [JSON.parse] of the argument's string ([None]: it throws
      a SyntaxError);
    - [Number_toString]: the decimal spelling of a number;
    - [timezoneOffset]: [Date.prototype.getTimezoneOffset()], the minutes
      from local time to UTC;
    - [random]: the n-th result of [Math.random()]. *)
Class Runtime := {
  apiKey : string;
  JSON_parse : JValue -> option JValue;
  Number_toString : float -> string;
  timezoneOffset : Z;
  random : nat -> float
}.

Section Component.

Context {rt : Runtime}.

(** ToString, as a template literal applies it.  An object made by
    [JSON.parse] prints as [[object Object]] unless it has a key toString
    of its own, which is never callable: then the conversion throws. *)
Fixpoint ToString (v : JValue) : option string :=
  match v with
  | JUndefined => Some "undefined"%string
  | JNull => Some "null"%string
  | JBool true => Some "true"%string
  | JBool false => Some "false"%string
  | JNum n => Some (Number_toString n)
  | JStr s => Some s
  | JArr xs =>
      (fix join (ys : list JValue) : option string :=
         match ys with
         | [] => Some EmptyString
         | y :: rest =>
             s ← match y with
                 | JUndefined | JNull => Some EmptyString
                 | _ => ToString y
                 end;
             match rest with
             | [] => Some s
             | _ => t ← join rest; Some (s +:+ "," +:+ t)
             end
         end) xs
  | JObj fields =>
      match own_property fields "toString" with
      | Some _ => None
      | None => Some "[object Object]"%string
      end
  end.

(** [xs.join(sep)] *)
Fixpoint Array_join (sep : string) (xs : list JValue) : option string :=
  match xs with
  | [] => Some EmptyString
  | y :: rest =>
      s ← match y with
          | JUndefined | JNull => Some EmptyString
          | _ => ToString y
          end;
      match rest with
      | [] => Some s
      | _ => t ← Array_join sep rest; Some (s +:+ sep +:+ t)
      end
  end.

(** The body of the [try] of [callGeminiOrchestrator]; [None] is any
    exception thrown inside it. *)
Definition orchestratorAttempt (net : FetchOutcome) : option JValue :=
  if String.eqb apiKey EmptyString then None          (* No API key provided *)
  else match net with
       | NetworkError => None                         (* fetch rejects *)
       | Response ok body =>
           if negb ok then None                       (* API Call Failed *)
           else data ← body;                          (* response.json() *)
                text ← responseText data;
                JSON_parse text
       end.

(** [callGeminiOrchestrator(mission)]: the mission only shapes the prompt. *)
Definition callGeminiOrchestrator (mission : string) (net : FetchOutcome) : JValue :=
  match orchestratorAttempt net with
  | Some plan => plan
  | None => fallbackPlan
  end.

(** [logs.map(l => `[${l.source}]: ${l.message}`).join('\n')], evaluated
    before the [try]. *)
Definition logLine (l : LogEntry) : option string :=
  s ← ToString (l_source l); Some ("[" +:+ s +:+ "]: " +:+ l_message l).

Definition logText (logs : list LogEntry) : option string :=
  lines ← mapM logLine logs;
  Some (String.concat (String "010"%char EmptyString) lines).

(** The body of the [try] of [callGeminiSummary]: no test of
    [response.ok], and the text is returned as it is. *)
Definition summaryAttempt (net : FetchOutcome) : option JValue :=
  if String.eqb apiKey EmptyString then None
  else match net with
       | NetworkError => None
       | Response _ body => data ← body; responseText data
       end.

(** [callGeminiSummary(logs)]; [None]: the exception of building the prompt
    reaches the caller. *)
Definition callGeminiSummary (logs : list LogEntry) (net : FetchOutcome) : option JValue :=
  _ ← logText logs;
  Some (match summaryAttempt net with
        | Some text => text
        | None => JStr fallbackSummary
        end).

(** ** The component *)

(** [Date.now()] as a number, for a clock [t] in milliseconds since 1970
    (negative before): exact for every time a [Date] can hold, which is
    below 2^53 in size. *)
Definition Date_now (t : Z) : float :=
  if t <? 0 then PrimFloat.opp (PrimFloat.of_uint63 (Uint63.of_Z (- t)))
  else PrimFloat.of_uint63 (Uint63.of_Z t).

Definition localTime (t : Z) : Z := t - timezoneOffset * 60000.
Definition getHours (t : Z) : Z := (localTime t / 3600000) mod 24.
Definition getMinutes (t : Z) : Z := (localTime t / 60000) mod 60.
Definition getSeconds (t : Z) : Z := (localTime t / 1000) mod 60.

Fixpoint repeat_char (n : nat) (c : ascii) : string :=
  match n with
  | O => EmptyString
  | S n' => String c (repeat_char n' c)
  end.

(** [s.padStart(targetLength, c)] *)
Definition padStart (targetLength : nat) (c : ascii) (s : string) : string :=
  repeat_char (targetLength - String.length s) c +:+ s.

(** [n.toString().padStart(2, '0')] for a field of the clock. *)
Definition twoDigits (n : Z) : string :=
  padStart 2 "0"%char (index_key (Z.to_nat n)).

Definition timeString (t : Z) : string :=
  twoDigits (getHours t) +:+ ":" +:+ twoDigits (getMinutes t) +:+ ":"
    +:+ twoDigits (getSeconds t).

Definition setAgents (f : list Slot -> option (list Slot)) : Handler unit :=
  fun w => match f (agents w) with
           | Some l => (with_agents l w, Some tt)
           | None => (w, None)
           end.
Definition setLogs (f : list LogEntry -> list LogEntry) : Handler unit :=
  write (fun w => with_logs (f (logs w)) w).
Definition setSimulationStep (n : nat) : Handler unit := write (with_simulationStep n).
Definition setIsSimulating (b : bool) : Handler unit := write (with_isSimulating b).
Definition setUserMission (s : string) : Handler unit := write (with_userMission s).
Definition setIsOrchestrating (b : bool) : Handler unit := write (with_isOrchestrating b).
Definition setMissionReport (v : JValue) : Handler unit := write (with_missionReport v).
Definition setIsGeneratingReport (b : bool) : Handler unit := write (with_isGeneratingReport b).

(** [Math.random()] *)
Definition Math_random : Handler float :=
  fun w => (with_randoms (S (randoms w)) w, Some (random (randoms w))).

(** [addLog(source, message)]: the entry goes to the front and the list is
    cut to its first eight entries. *)
Definition addLog (source : JValue) (message : string) : Handler unit :=
  (fun w =>
     (r <~ Math_random ;;
      let uniqueId := PrimFloat.add (Date_now (now w)) r in
      setLogs (fun prev => take 8 (mkLog uniqueId source message (timeString (now w)) :: prev))) w)%handler.

(** The entry [addLog(source, message)] puts in front in world [w]. *)
Definition newEntry (w : World) (source : JValue) (message : string) : LogEntry :=
  mkLog (PrimFloat.add (Date_now (now w)) (random (randoms w))) source message
    (timeString (now w)).

(** [{ ...a, status }] *)
Definition withStatus (status : AgentStatus) (a : Agent) : Agent :=
  mkAgent (a_id a) (a_name a) (a_type a) (a_x a) (a_y a) status
    (a_specialty a) (a_currentTask a).

(** [a.id === id ? { ...a, status } : a], the callback of the [map] in
    [updateAgentStatus]: an object without an id never equals the string
    [id]; reading the id of [undefined] throws; [map] does not call it on a
    hole, which stays. *)
Definition updateStatusOf (id : string) (status : AgentStatus) (a : Slot) : option Slot :=
  match a with
  | Full r => Some (if String.eqb (a_id r) id then Full (withStatus status r) else a)
  | Bare _ _ | Hole => Some a
  | Undef => None
  end.

Definition updateAgentStatus (id : string) (status : AgentStatus) : Handler unit :=
  setAgents (fun prev => mapM (updateStatusOf id status) prev).

(** [({ ...a, status: 'success' })], the callback of the [map] of the
    completion step. *)
Definition markSuccess (a : Slot) : Slot :=
  match a with
  | Full r => Full (withStatus success r)
  | Bare role _ => Bare role (Some success)
  | Undef => Bare None (Some success)
  | Hole => Hole
  end.

(** [[...prev]]: the copy has [undefined] where [prev] has a hole. *)
Definition spread (prev : list Slot) : list Slot :=
  map (fun a => match a with Hole => Undef | _ => a end) prev.

(** [{ ...old, name, specialty, currentTask }] where [old] is what the
    array holds at the index, if anything. *)
Definition withRole (old : option Slot) (name specialty currentTask : JValue) : Slot :=
  match old with
  | Some (Full a) =>
      Full (mkAgent (a_id a) name (a_type a) (a_x a) (a_y a) (a_status a)
              specialty currentTask)
  | Some (Bare _ status) => Bare (Some (name, specialty, currentTask)) status
  | Some Undef | Some Hole | None => Bare (Some (name, specialty, currentTask)) None
  end.

(** [l[i] = v]: inside the array the element is replaced; past its end the
    array grows, with holes up to [i]. *)
Definition array_set (i : nat) (v : Slot) (l : list Slot) : list Slot :=
  if decide (i < length l)%nat then <[i:=v]> l
  else l ++ replicate (i - length l) Hole ++ [v].

(** One of the three guarded assignments of the updater:
    [if (orchestratorPlan.agents[k]) newAgents[i] = { ...newAgents[i], name: ..., ... }] *)
Definition assignRole (orchestratorPlan : JValue) (k : string) (i : nat)
    (newAgents : list Slot) : option (list Slot) :=
  planAgents ← Get orchestratorPlan "agents";
  r ← Get planAgents k;
  if truthy r then
    name ← Get r "name";
    specialty ← Get r "specialty";
    task ← Get r "task";
    Some (array_set i (withRole (newAgents !! i) name specialty task) newAgents)
  else Some newAgents.

(** The updater [startSimulation] passes to [setAgents] once the plan is
    there. *)
Definition mapPlan (orchestratorPlan : JValue) (prev : list Slot) : option (list Slot) :=
  l1 ← assignRole orchestratorPlan "0" 1 (spread prev);
  l2 ← assignRole orchestratorPlan "1" 2 l1;
  assignRole orchestratorPlan "2" 3 l2.

(** [setTimeout(cb, delay)]: the callback is due [delay] ms from now and
    runs after the pending ones that are due no later. *)
Fixpoint enqueue (due : Z) (cb : TimerCallback) (q : list (Z * TimerCallback))
    : list (Z * TimerCallback) :=
  match q with
  | [] => [(due, cb)]
  | (d, c) :: rest =>
      if d <=? due then (d, c) :: enqueue due cb rest else (due, cb) :: q
  end.

Definition setTimeout (cb : TimerCallback) (delay : Z) : Handler unit :=
  write (fun w => with_timers (enqueue (now w + delay) cb (timers w)) w).

(** A double quote. *)
Definition dquote : string := String (ascii_of_nat 34) EmptyString.

(** [orchestratorPlan.agents[k]] *)
Definition planAgent (orchestratorPlan : JValue) (k : string) : option JValue :=
  planAgents ← Get orchestratorPlan "agents"; Get planAgents k.

(** [orchestratorPlan.agents.map((a: any) => a.name).join(', ')]: only an
    array has a [map] to call. *)
Definition roleNames (orchestratorPlan : JValue) : option string :=
  planAgents ← Get orchestratorPlan "agents";
  match planAgents with
  | JArr xs => names ← mapM (fun a => Get a "name") xs; Array_join ", " names
  | _ => None
  end.

Definition CANVAS_WIDTH : Z := 800.
Definition CANVAS_HEIGHT : Z := 500.
Definition CENTER_X : Z := CANVAS_WIDTH / 2.
Definition CENTER_Y : Z := CANVAS_HEIGHT / 2.

Definition initialAgents : list Slot :=
  [ Full (mkAgent "1" (JStr "Orchestrator") Orchestrator CENTER_X CENTER_Y idle
            (JStr "Coordination") (JStr "Awaiting Mission"));
    Full (mkAgent "2" (JStr "Specialist A") Specialist (CENTER_X - 100) (CENTER_Y - 80) idle
            (JStr "Pending...") (JStr "Standby"));
    Full (mkAgent "3" (JStr "Specialist B") Specialist (CENTER_X + 100) (CENTER_Y - 80) idle
            (JStr "Pending...") (JStr "Standby"));
    Full (mkAgent "4" (JStr "Worker A") Worker (CENTER_X - 120) (CENTER_Y + 60) idle
            (JStr "Pending...") (JStr "Standby"));
    Full (mkAgent "5" (JStr "Support Bot") Worker (CENTER_X + 120) (CENTER_Y + 60) idle
            (JStr "Utilities") (JStr "Standby")) ].

Definition resetSimulation : Handler unit :=
  (setAgents (fun _ => Some initialAgents) ;;
   setSimulationStep 0 ;;
   setLogs (fun _ => []) ;;
   setMissionReport JNull ;;
   addLog (JStr "System") "Agentic Mesh Online. Enter a mission to begin.")%handler.

(** [await callGeminiOrchestrator(userMission)]: the call is in flight and
    the handler returns to the event loop. *)
Definition await_callGeminiOrchestrator (mission : string) : Handler unit :=
  write (fun w => with_planCalls (planCalls w ++ [mission]) w).

(** [startSimulation] up to its [await], for the values of [isSimulating],
    [isOrchestrating] and [userMission] that the function closes over. *)
Definition startSimulation_of (isSimulating isOrchestrating : bool)
    (userMission : string) : Handler unit :=
  if isSimulating || isOrchestrating then hret tt
  else
    (setIsOrchestrating true ;;
     setMissionReport JNull ;;
     setSimulationStep 0 ;;
     setLogs (fun _ => []) ;;
     addLog (JStr "User") ("Request received: " +:+ dquote +:+ userMission +:+ dquote) ;;
     addLog (JStr "Orchestrator LLM") "Consulting Gemini API for agent decomposition..." ;;
     await_callGeminiOrchestrator userMission)%handler.

(** The [startSimulation] of the current render. *)
Definition startSimulation : Handler unit :=
  fun w => startSimulation_of (isSimulating w) (isOrchestrating w) (userMission w) w.

(** [startSimulation] from the value of the [await] on. *)
Definition startSimulation_resume (orchestratorPlan : JValue) : Handler unit :=
  (setAgents (mapPlan orchestratorPlan) ;;
   setIsOrchestrating false ;;
   setIsSimulating true ;;
   setSimulationStep 1 ;;
   setTimeout (Step1 orchestratorPlan) 1500 ;;
   setTimeout (Step2 orchestratorPlan) 3500 ;;
   setTimeout Step3 5500 ;;
   setTimeout (Step4 orchestratorPlan) 8500 ;;
   setTimeout Step5 11500)%handler.

(** The bodies of the five callbacks. *)
Definition timerCallback (cb : TimerCallback) : Handler unit :=
  match cb with
  | Step1 orchestratorPlan =>
      (setSimulationStep 2 ;;
       updateAgentStatus "1" working ;;
       names <~ eval (roleNames orchestratorPlan) ;;
       addLog (JStr "Orchestrator LLM")
         ("Decomposed mission. Assigning roles: " +:+ names +:+ "."))%handler
  | Step2 orchestratorPlan =>
      (setSimulationStep 3 ;;
       s0 <~ eval (a ← planAgent orchestratorPlan "0"; v ← Get a "specialty"; ToString v) ;;
       s1 <~ eval (a ← planAgent orchestratorPlan "1"; v ← Get a "specialty"; ToString v) ;;
       addLog (JStr "Registry")
         ("Lookup successful: Found specialized agents for " +:+ s0 +:+ " and " +:+ s1 +:+ "."))%handler
  | Step3 =>
      (setSimulationStep 4 ;;
       updateAgentStatus "1" communicating ;;
       updateAgentStatus "2" working ;;
       updateAgentStatus "3" working ;;
       updateAgentStatus "4" working ;;
       addLog (JStr "Mesh") "Task protocols distributed to agents.")%handler
  | Step4 orchestratorPlan =>
      (setSimulationStep 5 ;;
       updateAgentStatus "2" communicating ;;
       updateAgentStatus "5" working ;;
       name0 <~ eval (a ← planAgent orchestratorPlan "0"; Get a "name") ;;
       task0 <~ eval (a ← planAgent orchestratorPlan "0"; v ← Get a "task"; ToString v) ;;
       addLog name0 (task0 +:+ " - Complete.") ;;
       name1 <~ eval (a ← planAgent orchestratorPlan "1"; Get a "name") ;;
       task1 <~ eval (a ← planAgent orchestratorPlan "1"; v ← Get a "task"; ToString v) ;;
       addLog name1 (task1 +:+ " - In Progress."))%handler
  | Step5 =>
      (setSimulationStep 6 ;;
       setAgents (fun prev => Some (map markSuccess prev)) ;;
       addLog (JStr "Monitor") "Workflow completed successfully. Results aggregated." ;;
       setIsSimulating false)%handler
  end.

(** [generateReport] up to its [await], for the [logs] it closes over:
    [callGeminiSummary(logs)] builds its prompt at the call, and an
    exception there ends [generateReport]. *)
Definition generateReport_of (logs : list LogEntry) : Handler unit :=
  (setIsGeneratingReport true ;;
   _ <~ eval (logText logs) ;;
   write (fun w => with_summaryCalls (summaryCalls w ++ [logs]) w))%handler.

(** The [generateReport] of the current render. *)
Definition generateReport : Handler unit :=
  fun w => generateReport_of (logs w) w.

(** [generateReport] from the value of the [await] on. *)
Definition generateReport_resume (summary : JValue) : Handler unit :=
  (setMissionReport summary ;;
   setIsGeneratingReport false)%handler.

(** ** The event loop *)

(** What can happen to the mounted component: the user types a mission or
    clicks one of the three buttons, a remote call in flight settles, time
    passes, or the earliest pending timer runs. *)
Inductive Event :=
| ChangeMission (value : string)
| ClickStart
| ClickReset
| ClickReport
| PlanSettles (net : FetchOutcome)
| SummarySettles (net : FetchOutcome)
| Elapse (ms : N)
| TimerFires.

Definition step (w : World) (e : Event) : World :=
  match e with
  | ChangeMission value => fst (setUserMission value w)
  | ClickStart => fst (startSimulation w)
  | ClickReset => fst (resetSimulation w)
  | ClickReport => fst (generateReport w)
  | PlanSettles net =>
      match planCalls w with
      | [] => w
      | mission :: rest =>
          fst (startSimulation_resume (callGeminiOrchestrator mission net)
                 (with_planCalls rest w))
      end
  | SummarySettles net =>
      match summaryCalls w with
      | [] => w
      | sent :: rest =>
          match callGeminiSummary sent net with
          | Some summary => fst (generateReport_resume summary (with_summaryCalls rest w))
          | None => with_summaryCalls rest w
          end
      end
  | Elapse ms => with_now (now w + Z.of_N ms) w
  | TimerFires =>
      match timers w with
      | [] => w
      | (due, cb) :: rest =>
          if due <=? now w then fst (timerCallback cb (with_timers rest w)) else w
      end
  end.

Definition run (w : World) (trace : list Event) : World := foldl step w trace.

(** A sequence of [addLog] calls, each with its source and message. *)
Definition addLogs (calls : list (JValue * string)) (w : World) : World :=
  foldl (fun w' call => fst (addLog (fst call) (snd call) w')) w calls.

(** ** What the render reads *)

(** [getAgentColor(status, type)]: the classes of an agent's disc. *)
Definition getAgentColor (status : AgentStatus) (type : AgentType) : string :=
  match status with
  | success => "bg-green-500 border-green-300"
  | working => "bg-amber-400 border-amber-200 animate-pulse"
  | communicating => "bg-blue-500 border-blue-300 animate-pulse"
  | idle =>
      match type with
      | Orchestrator => "bg-purple-600 border-purple-400"
      | Specialist | Worker => "bg-slate-600 border-slate-400"
      end
  end.

(** [disabled={isSimulating || isOrchestrating}] of the mission input. *)
Definition missionInputDisabled (w : World) : bool :=
  isSimulating w || isOrchestrating w.

(** [disabled={isSimulating || isOrchestrating || !userMission}] of the
    start button. *)
Definition startDisabled (w : World) : bool :=
  isSimulating w || isOrchestrating w || String.eqb (userMission w) EmptyString.

(** [simulationStep === 6 && !missionReport]: the report button is there. *)
Definition reportButtonShown (w : World) : bool :=
  Nat.eqb (simulationStep w) 6 && negb (truthy (missionReport w)).

(** [disabled={isGeneratingReport}] of the report button. *)
Definition reportButtonDisabled (w : World) : bool := isGeneratingReport w.

(** [a.status !== 'idle'], the callback of the [filter] of the footer: an
    object without a status is not idle; reading the status of [undefined]
    throws. *)
Definition isActive (a : Slot) : option bool :=
  match a with
  | Full r => Some (match a_status r with idle => false | _ => true end)
  | Bare _ (Some idle) => Some false
  | Bare _ _ => Some true
  | Undef => None
  | Hole => Some false
  end.

(** [agents.filter(a => a.status !== 'idle').length || 0]: [filter] does
    not call its callback on a hole. *)
Fixpoint activeAgents (l : list Slot) : option nat :=
  match l with
  | [] => Some 0%nat
  | Hole :: rest => activeAgents rest
  | a :: rest =>
      b ← isActive a;
      n ← activeAgents rest;
      Some (if b : bool then S n else n)
  end.

(** Whether the page lets the user cause the event: typing and the start
    and report buttons go by their [disabled] and by whether they are
    rendered; reset is always there; the other events are not the user's. *)
Definition enabled (w : World) (e : Event) : bool :=
  match e with
  | ChangeMission _ => negb (missionInputDisabled w)
  | ClickStart => negb (startDisabled w)
  | ClickReport => reportButtonShown w && negb (reportButtonDisabled w)
  | ClickReset | PlanSettles _ | SummarySettles _ | Elapse _ | TimerFires => true
  end.

(** One event of a session at the page: an event the page does not offer
    does not happen. *)
Definition pageStep (w : World) (e : Event) : World :=
  if enabled w e then step w e else w.

Definition pageRun (w : World) (trace : list Event) : World := foldl pageStep w trace.

(** The [useState] initial values, at time [t0]. *)
Definition initialWorld (t0 : Z) : World :=
  mkWorld [] [] 0 false "Plan a 3-day trip to Tokyo" false JNull false t0 0 [] [] [].

(** The component once mounted: its effect has run [resetSimulation]. *)
Definition mount (t0 : Z) : World := fst (resetSimulation (initialWorld t0)).

(** ** Whether the render returns *)

(** A value React takes as a child, as in [<span>{agent.name}</span>]: a
    string, a number, a boolean, [null] and [undefined] are; an array is
    when its elements are; an object that [JSON.parse] made is not (React
    throws: objects are not valid as a React child). *)
Fixpoint renderable (v : JValue) : bool :=
  match v with
  | JObj _ => false
  | JArr xs => forallb renderable xs
  | _ => true
  end.

(** The callback of [agents.map] in the render, at one position: it reads
    [agent.id], which throws on [undefined], and gives React the name and,
    under [agent.specialty !== 'Pending...'], the specialty.  [map] does not
    call it on a hole. *)
Definition agentRenders (a : Slot) : bool :=
  match a with
  | Full r => renderable (a_name r) && renderable (a_specialty r)
  | Bare (Some (name, specialty, _)) _ => renderable name && renderable specialty
  | Bare None _ => true
  | Undef => false
  | Hole => true
  end.

(** [agents.slice(1).map((agent, i) => ...)], the connection lines: the
    callback reads [agents[0].x] and [agent.x], and each throws on
    [undefined]; it is not called on a hole. *)
Definition linesRender (l : list Slot) : bool :=
  match l with
  | [] => true
  | first :: others =>
      forallb (fun a =>
                 match a, first with
                 | Hole, _ => true
                 | Undef, _ | _, Undef | _, Hole => false
                 | _, _ => true
                 end) others
  end.

(** What the render does with [agents]: the lines, the icons and the
    counter of the footer. *)
Definition agentsRender (l : list Slot) : bool :=
  linesRender l && forallb agentRenders l &&
  match activeAgents l with Some _ => true | None => false end.

(** [logs.map(log => ...)] gives React the source, the time and the message
    of each entry; the last two are strings. *)
Definition logsRender (logs : list LogEntry) : bool :=
  forallb (fun log => renderable (l_source log)) logs.

(** Whether the render of the component returns in the world [w], with no
    agent selected (no event of the model opens the dialog of an agent).
    [{missionReport && (... {missionReport} ...)}] gives React the report
    itself when it is falsy and inside a paragraph when it is not. *)
Definition renders (w : World) : bool :=
  agentsRender (agents w) && logsRender (logs w) && renderable (missionReport w).

(** Whether the event ends the life of the component: React unmounts it
    when the render after the event throws, or when the updater that the
    continuation of [startSimulation] queued throws in that render. *)
Definition crashes (w : World) (e : Event) : bool :=
  match e, planCalls w with
  | PlanSettles net, mission :: _ =>
      match mapPlan (callGeminiOrchestrator mission net) (agents w) with
      | Some _ => false
      | None => true
      end
  | _, _ => false
  end || negb (renders (step w e)).

(** The component is still mounted at every point of the trace, from a
    world in which it is. *)
Fixpoint live (w : World) (trace : list Event) : bool :=
  match trace with
  | [] => true
  | e :: rest => negb (crashes w e) && live (step w e) rest
  end.

End Component.

(** ** Vocabulary of the specification *)

(** Who an element of [agents] is: the id and role of an agent record. *)
Definition identity (s : Slot) : option (string * AgentType) :=
  match s with
  | Full a => Some (a_id a, a_type a)
  | Bare _ _ | Undef | Hole => None
  end.

(** The status an element of [agents] shows, if it has one. *)
Definition statusOf (s : Slot) : option AgentStatus :=
  match s with
  | Full a => Some (a_status a)
  | Bare _ status => status
  | Undef | Hole => None
  end.

(** The five ids with their roles, by position. *)
Definition roster : list (option (string * AgentType)) :=
  [ Some ("1"%string, Orchestrator); Some ("2"%string, Specialist);
    Some ("3"%string, Specialist); Some ("4"%string, Worker);
    Some ("5"%string, Worker) ].

(** Exactly five agent records, with the ids and roles of the roster. *)
Definition fiveAgents (l : list Slot) : Prop := map identity l = roster.

(** Two agent records that differ at most in their status. *)
Definition sameButStatus (a a' : Agent) : Prop :=
  a_id a' = a_id a /\ a_name a' = a_name a /\ a_type a' = a_type a /\
  a_x a' = a_x a /\ a_y a' = a_y a /\ a_specialty a' = a_specialty a /\
  a_currentTask a' = a_currentTask a.

(** A [{name, specialty, task}] record of strings. *)
Definition isRoleRecord (v : JValue) : bool :=
  match v with
  | JObj fields =>
      match own_property fields "name", own_property fields "specialty",
            own_property fields "task" with
      | Some (JStr _), Some (JStr _), Some (JStr _) => true
      | _, _, _ => false
      end
  | _ => false
  end.

(** A plan of exactly three role records. *)
Definition threeRoles (plan : JValue) : bool :=
  match Get plan "agents" with
  | Some (JArr [r0; r1; r2]) => isRoleRecord r0 && isRoleRecord r1 && isRoleRecord r2
  | _ => false
  end.

(** The envelope the service wraps a text in. *)
Definition envelope (text : JValue) : JValue :=
  JObj [("candidates"%string,
         JArr [JObj [("content"%string,
                      JObj [("parts"%string,
                             JArr [JObj [("text"%string, text)]])])]])].

(** The timers of a run anchored at [anchor]. *)
Definition pendingSteps (anchor : Z) (plan : JValue) : list (Z * TimerCallback) :=
  [ (anchor + 1500, Step1 plan); (anchor + 3500, Step2 plan); (anchor + 5500, Step3);
    (anchor + 8500, Step4 plan); (anchor + 11500, Step5) ].

(** How the busy flags, the stage, the timers and the plan call in flight
    hang together in every world the component can reach. *)
Definition coherent (w : World) : Prop :=
  if isSimulating w then
    isOrchestrating w = false /\ planCalls w = [] /\
    exists anchor plan k, (k <= 4)%nat /\ timers w = drop k (pendingSteps anchor plan)
  else
    timers w = [] /\ (simulationStep w = 0%nat \/ simulationStep w = 6%nat) /\
    (length (planCalls w) <= 1)%nat /\
    (isOrchestrating w = false -> planCalls w = []).

(** A handler keeps [P] when [P] holds after it wherever it held before,
    however the handler ends. *)
Definition preserves {A} (P : World -> Prop) (h : Handler A) : Prop :=
  forall w, P w -> P (fst (h w)).

(** The log holds at most eight entries. *)
Definition logsBounded (w : World) : Prop := (length (logs w) <= 8)%nat.

(** The agents of the world are the five of the roster. *)
Definition agentsKept (w : World) : Prop := fiveAgents (agents w).

(** What decides whether a run can start and which callback runs next. *)
Definition control (w : World) : bool * bool * list (Z * TimerCallback) * list string :=
  (isSimulating w, isOrchestrating w, timers w, planCalls w).

(** The world has the control [c]. *)
Definition keepsControl (c : bool * bool * list (Z * TimerCallback) * list string)
    (w : World) : Prop := control w = c.

(** The stage each callback sets. *)
Definition stageOf (cb : TimerCallback) : nat :=
  match cb with
  | Step1 _ => 2 | Step2 _ => 3 | Step3 => 4 | Step4 _ => 5 | Step5 => 6
  end.

(** The world is at stage [n]. *)
Definition atStage (n : nat) (w : World) : Prop := simulationStep w = n.

(** Two agent records that differ at most in name, specialty and task. *)
Definition sameButRole (a a' : Agent) : Prop :=
  a_id a' = a_id a /\ a_type a' = a_type a /\ a_x a' = a_x a /\
  a_y a' = a_y a /\ a_status a' = a_status a.

(** A plan of three role records. *)
Definition rolePlan (r0 r1 r2 : JValue) : JValue :=
  JObj [("agents"%string, JArr [r0; r1; r2])].

(** The character of a decimal digit. *)
Definition digitChar (n : Z) : ascii := ascii_of_nat (48 + Z.to_nat n).

(** The two decimal digits of a number below 100. *)
Definition twoDigitString (n : Z) : string :=
  String (digitChar (n / 10)) (String (digitChar (n mod 10)) EmptyString).

(** Every pending timer is due within 11.5 s. *)
Definition dueSoon (w : World) : Prop :=
  Forall (fun timer => fst timer <= now w + 11500) (timers w).

(** What a session at the page keeps about the calls in flight: a report
    is asked for only while none is being generated, and no empty mission
    is sent. *)
Definition orderly (w : World) : Prop :=
  (isGeneratingReport w = false -> summaryCalls w = []) /\
  (length (summaryCalls w) <= 1)%nat /\
  Forall (fun mission => mission <> EmptyString) (planCalls w).

(** The report side of the world. *)
Definition reporting (w : World) : list (list LogEntry) * bool :=
  (summaryCalls w, isGeneratingReport w).

(** What no timer callback writes. *)
Definition besideTimeline (w : World)
    : Z * list (Z * TimerCallback) * list string * bool * string * JValue
      * list (list LogEntry) * bool :=
  (now w, timers w, planCalls w, isOrchestrating w, userMission w, missionReport w,
   summaryCalls w, isGeneratingReport w).

(** The clock and the pending timers. *)
Definition schedule (w : World) : Z * list (Z * TimerCallback) := (now w, timers w).

(** The five firings that empty the queue of a run. *)
Definition fireAll : list Event :=
  [TimerFires; TimerFires; TimerFires; TimerFires; TimerFires].

(** The source the fourth callback logs for the plan entry [k],
    [orchestratorPlan.agents[k].name], is one React can show. *)
Definition sourcePrintable (plan : JValue) (k : string) : bool :=
  match a ← planAgent plan k; Get a "name" with
  | Some name => renderable name
  | None => true
  end.

(** The pending callbacks log under sources React can show. *)
Definition printableSources (w : World) : Prop :=
  Forall (fun timer =>
            match snd timer with
            | Step4 plan =>
                sourcePrintable plan "0" = true /\ sourcePrintable plan "1" = true
            | _ => True
            end) (timers w).

(** The newest entries of the log, as the monitor shows them: source and
    message. *)
Definition shown (n : nat) (w : World) : list (JValue * string) :=
  map (fun entry => (l_source entry, l_message entry)) (take n (logs w)).

(** An answer of the service: the text is that of the first part of the
    first candidate; more candidates, parts and fields may follow. *)
Definition answer (text : JValue)
    (partFields contentFields candidateFields fields : list (string * JValue))
    (parts candidates : list JValue) : JValue :=
  JObj (("candidates"%string,
         JArr (JObj (("content"%string,
                      JObj (("parts"%string,
                             JArr (JObj (("text"%string, text) :: partFields) :: parts))
                            :: contentFields))
                     :: candidateFields)
               :: candidates))
        :: fields).

(** Every source of the log is a string. *)
Definition stringSources (logs : list LogEntry) : Prop :=
  Forall (fun entry => exists s, l_source entry = JStr s) logs.

(** A run at time 0 under the fallback plan, up to the last callback. *)
Definition sampleRunBeforeCompletion : list Event :=
  [ClickStart; PlanSettles NetworkError; Elapse 11500;
   TimerFires; TimerFires; TimerFires; TimerFires].

(** The same run to its end, and a report asked for afterwards. *)
Definition sampleRunAndReport : list Event :=
  sampleRunBeforeCompletion ++ [TimerFires; ClickReport; SummarySettles NetworkError].

(** The text [{"agents":[]}]. *)
Definition emptyPlanText : string :=
  "{" +:+ dquote +:+ "agents" +:+ dquote +:+ ":[]}".

(** A runtime with a credential, for the examples: [JSON_parse] is
    [JSON.parse] on [emptyPlanText], the one text the examples parse, and
    [Number_toString] is not reached by them. *)
Definition sampleRuntime : Runtime :=
  {| apiKey := "sample-key";
     JSON_parse := fun v =>
       match v with
       | JStr s => if String.eqb s emptyPlanText
                   then Some (JObj [("agents"%string, JArr [])]) else None
       | _ => None
       end;
     Number_toString := fun _ => "0"%string;
     timezoneOffset := 0;
     random := fun _ => 0.5%float |}.

(** The same runtime with no credential configured. *)
Definition keylessRuntime : Runtime :=
  {| apiKey := EmptyString;
     JSON_parse := @JSON_parse sampleRuntime;
     Number_toString := @Number_toString sampleRuntime;
     timezoneOffset := 0;
     random := fun _ => 0.5%float |}.

Section PlanFailure.

Context {rt : Runtime}.

(** The ways the remote plan call does not yield a plan: no credential,
    the request fails in transit, the response is not a success, its body
    is not JSON, the body lacks the text of the first candidate, or that
    text is not JSON. *)
Inductive PlanCallFails : FetchOutcome -> Prop :=
| fails_no_credential net :
    apiKey = EmptyString -> PlanCallFails net
| fails_in_transit :
    PlanCallFails NetworkError
| fails_by_status body :
    PlanCallFails (Response false body)
| fails_body_not_json ok :
    PlanCallFails (Response ok None)
| fails_no_text ok data :
    responseText data = None -> PlanCallFails (Response ok (Some data))
| fails_text_not_json ok data text :
    responseText data = Some text -> JSON_parse text = None ->
    PlanCallFails (Response ok (Some data)).

End PlanFailure.

Arguments timeString : simpl never.
Arguments Date_now : simpl never.
Arguments newEntry : simpl never.

(** * Properties *)

Section Properties.

Context {rt : Runtime}.

(** ** Handlers that keep a property of the world *)

Lemma preserves_bind {A B} (P : World -> Prop) (c : Handler A) (k : A -> Handler B) :
  preserves P c -> (forall a, preserves P (k a)) -> preserves P (hbind c k).
Proof.
  intros Hc Hk w Hw. unfold hbind.
  specialize (Hc w Hw). destruct (c w) as [w' [a|]]; simpl in *.
  - by apply Hk.
  - done.
Qed.

Lemma preserves_eval {A} (P : World -> Prop) (o : option A) : preserves P (eval o).
Proof. by intros w Hw. Qed.

Lemma preserves_write (P : World -> Prop) (f : World -> World) :
  (forall w, P w -> P (f w)) -> preserves P (write f).
Proof. intros Hf w Hw. by apply Hf. Qed.

Lemma preserves_setAgents (P : World -> Prop) f :
  (forall w l, P w -> f (agents w) = Some l -> P (with_agents l w)) ->
  preserves P (setAgents f).
Proof.
  intros Hf w Hw. unfold setAgents.
  destruct (f (agents w)) as [l|] eqn:E; simpl; [by apply Hf | done].
Qed.

Lemma addLog_eq source message w :
  addLog source message w =
  (with_logs (take 8 (newEntry w source message :: logs w))
     (with_randoms (S (randoms w)) w), Some tt).
Proof. reflexivity. Qed.

Lemma addLog_length source message w :
  (length (logs (fst (addLog source message w))) <= 8)%nat.
Proof.
  rewrite addLog_eq. unfold with_logs. cbn [fst logs].
  rewrite length_take. lia.
Qed.

Lemma preserves_addLog (P : World -> Prop) source message :
  (forall w l n, P w -> (length l <= 8)%nat -> P (with_logs l (with_randoms n w))) ->
  preserves P (addLog source message).
Proof.
  intros HP w Hw. rewrite addLog_eq. cbn [fst]. apply HP; [done|].
  rewrite length_take. lia.
Qed.

(** Walks a chain of statements, leaving to [side] what each write owes. *)
Ltac walk side :=
  repeat match goal with
  | |- preserves _ (hbind _ _) => apply preserves_bind; [|intros ?]
  | |- preserves _ (hret _) => by intros ? ?
  | |- preserves _ (eval _) => apply preserves_eval
  | |- preserves _ (addLog _ _) => apply preserves_addLog; side
  | |- preserves _ (setAgents _) => apply preserves_setAgents; side
  | |- preserves _ (updateAgentStatus _ _) => apply preserves_setAgents; side
  | |- preserves _ _ => apply preserves_write; side
  end.

(** A property that every handler keeps, and that does not read the clock,
    the mission or the queues of the runtime, holds along every trace. *)
Lemma step_preserves (P : World -> Prop) :
  (forall w v, P w -> P (with_userMission v w)) ->
  (forall w v, P w -> P (with_now v w)) ->
  (forall w v, P w -> P (with_timers v w)) ->
  (forall w v, P w -> P (with_planCalls v w)) ->
  (forall w v, P w -> P (with_summaryCalls v w)) ->
  preserves P startSimulation ->
  preserves P resetSimulation ->
  preserves P generateReport ->
  (forall plan, preserves P (startSimulation_resume plan)) ->
  (forall summary, preserves P (generateReport_resume summary)) ->
  (forall cb, preserves P (timerCallback cb)) ->
  forall w e, P w -> P (step w e).
Proof.
  intros Hmission Hnow Htimers Hplans Hsummaries Hstart Hreset Hreport Hresume
    Hreported Hcallback w e Hw.
  destruct e; simpl.
  - by apply Hmission.
  - by apply Hstart.
  - by apply Hreset.
  - by apply Hreport.
  - destruct (planCalls w); [done|]. by apply Hresume, Hplans.
  - destruct (summaryCalls w); [done|].
    destruct (callGeminiSummary _ _); [|by apply Hsummaries].
    by apply Hreported, Hsummaries.
  - by apply Hnow.
  - destruct (timers w) as [|[due cb] rest]; [done|].
    destruct (due <=? now w); [|done]. by apply Hcallback, Htimers.
Qed.

Lemma run_preserves (P : World -> Prop) :
  (forall w e, P w -> P (step w e)) ->
  forall trace w, P w -> P (run w trace).
Proof.
  intros Hstep trace. induction trace as [|e trace IH]; intros w Hw; [done|].
  simpl. by apply IH, Hstep.
Qed.

(** ** The log never holds more than eight entries *)

Ltac logs_side :=
  unfold logsBounded; intros; simpl in *; try done; try lia.

Lemma logsBounded_resetSimulation : preserves logsBounded resetSimulation.
Proof. unfold resetSimulation. walk logs_side. Qed.

Lemma logsBounded_startSimulation_of b1 b2 m :
  preserves logsBounded (startSimulation_of b1 b2 m).
Proof. unfold startSimulation_of. destruct (b1 || b2); walk logs_side. Qed.

Lemma logsBounded_startSimulation : preserves logsBounded startSimulation.
Proof. intros w Hw. by apply logsBounded_startSimulation_of. Qed.

Lemma logsBounded_resume plan : preserves logsBounded (startSimulation_resume plan).
Proof. unfold startSimulation_resume. walk logs_side. Qed.

Lemma logsBounded_timerCallback cb : preserves logsBounded (timerCallback cb).
Proof. destruct cb; unfold timerCallback; walk logs_side. Qed.

Lemma logsBounded_generateReport_of l : preserves logsBounded (generateReport_of l).
Proof. unfold generateReport_of. walk logs_side. Qed.

Lemma logsBounded_generateReport : preserves logsBounded generateReport.
Proof. intros w Hw. by apply logsBounded_generateReport_of. Qed.

Lemma logsBounded_step w e : logsBounded w -> logsBounded (step w e).
Proof.
  apply step_preserves; [done..| | | | | |].
  - apply logsBounded_startSimulation.
  - apply logsBounded_resetSimulation.
  - apply logsBounded_generateReport.
  - apply logsBounded_resume.
  - intros summary. unfold generateReport_resume. walk logs_side.
  - apply logsBounded_timerCallback.
Qed.

Lemma logsBounded_mount t0 : logsBounded (mount t0).
Proof. unfold mount. apply logsBounded_resetSimulation. unfold logsBounded. simpl. lia. Qed.

Lemma logsBounded_reachable t0 trace : logsBounded (run (mount t0) trace).
Proof. apply run_preserves; [apply logsBounded_step | apply logsBounded_mount]. Qed.

(** ** The five agents keep their places *)

Lemma identity_updateStatusOf id status s s' :
  updateStatusOf id status s = Some s' -> identity s' = identity s.
Proof.
  destruct s as [a| | |]; simpl; intros [= <-]; [|done..].
  by destruct (String.eqb _ _).
Qed.

Lemma identity_markSuccess s : identity (markSuccess s) = identity s.
Proof. by destruct s. Qed.

Lemma identity_mapM_updateStatusOf id status l l' :
  mapM (updateStatusOf id status) l = Some l' -> map identity l' = map identity l.
Proof.
  intros H. apply mapM_Some in H.
  induction H as [|s s' l l' Hs _ IH]; [done|].
  simpl. f_equal; [by eapply identity_updateStatusOf | done].
Qed.

Lemma fiveAgents_updateStatus id status l l' :
  fiveAgents l -> mapM (updateStatusOf id status) l = Some l' -> fiveAgents l'.
Proof.
  unfold fiveAgents. intros <- H. by eapply identity_mapM_updateStatusOf.
Qed.

Lemma fiveAgents_markSuccess l : fiveAgents l -> fiveAgents (map markSuccess l).
Proof.
  unfold fiveAgents. intros <-. rewrite map_map.
  apply map_ext. apply identity_markSuccess.
Qed.

Lemma fiveAgents_inv l :
  fiveAgents l ->
  exists a1 a2 a3 a4 a5,
    l = [Full a1; Full a2; Full a3; Full a4; Full a5] /\
    (a_id a1, a_type a1) = ("1"%string, Orchestrator) /\
    (a_id a2, a_type a2) = ("2"%string, Specialist) /\
    (a_id a3, a_type a3) = ("3"%string, Specialist) /\
    (a_id a4, a_type a4) = ("4"%string, Worker) /\
    (a_id a5, a_type a5) = ("5"%string, Worker).
Proof.
  unfold fiveAgents, roster. intros H.
  destruct l as [|[a1| | |] [|[a2| | |] [|[a3| | |] [|[a4| | |] [|[a5| | |] [|]]]]]];
    simpl in H; try discriminate.
  exists a1, a2, a3, a4, a5. simplify_eq. repeat split; by f_equal.
Qed.

Lemma fiveAgents_assignRole plan k i l l' :
  (i < 5)%nat -> fiveAgents l -> assignRole plan k i l = Some l' -> fiveAgents l'.
Proof.
  intros Hi Hl. unfold assignRole. intros H.
  destruct (Get plan "agents") as [planAgents|]; [|done]. simpl in H.
  destruct (Get planAgents k) as [r|]; [|done]. simpl in H.
  destruct (truthy r); [|by simplify_eq].
  destruct (Get r "name") as [name|]; [|done]. simpl in H.
  destruct (Get r "specialty") as [specialty|]; [|done]. simpl in H.
  destruct (Get r "task") as [task|]; [|done]. simpl in H.
  simplify_eq.
  destruct (fiveAgents_inv l Hl) as (a1 & a2 & a3 & a4 & a5 & -> & ?).
  unfold fiveAgents in *.
  destruct i as [|[|[|[|[|i]]]]]; [done..|lia].
Qed.

Lemma spread_fiveAgents l : fiveAgents l -> spread l = l.
Proof.
  intros Hl. by destruct (fiveAgents_inv l Hl) as (a1 & a2 & a3 & a4 & a5 & -> & _).
Qed.

Lemma fiveAgents_mapPlan plan l l' :
  fiveAgents l -> mapPlan plan l = Some l' -> fiveAgents l'.
Proof.
  unfold mapPlan. intros Hl H. rewrite (spread_fiveAgents l Hl) in H.
  destruct (assignRole plan "0" 1 l) as [l1|] eqn:E1; [|done]. simpl in H.
  destruct (assignRole plan "1" 2 l1) as [l2|] eqn:E2; [|done]. simpl in H.
  eapply (fiveAgents_assignRole _ _ 3); [lia| |done].
  eapply (fiveAgents_assignRole _ _ 2); [lia| |done].
  eapply (fiveAgents_assignRole _ _ 1); [lia|done|done].
Qed.

Ltac agents_side :=
  unfold agentsKept; intros; simpl in *; simplify_eq;
  eauto using fiveAgents_updateStatus, fiveAgents_markSuccess, fiveAgents_mapPlan.

Lemma agentsKept_resetSimulation w : agentsKept (fst (resetSimulation w)).
Proof. reflexivity. Qed.

Lemma agentsKept_step w e : agentsKept w -> agentsKept (step w e).
Proof.
  apply step_preserves; [done..| | | | | |].
  - intros w' Hw'. unfold startSimulation.
    generalize (isSimulating w') (isOrchestrating w') (userMission w'). intros b1 b2 m.
    revert w' Hw'. fold (preserves agentsKept (startSimulation_of b1 b2 m)).
    unfold startSimulation_of. destruct (b1 || b2); walk agents_side.
  - intros w' _. apply agentsKept_resetSimulation.
  - intros w' Hw'. unfold generateReport. generalize (logs w') at 1. intros l.
    revert w' Hw'. fold (preserves agentsKept (generateReport_of l)).
    unfold generateReport_of. walk agents_side.
  - intros plan. unfold startSimulation_resume. walk agents_side.
  - intros summary. unfold generateReport_resume. walk agents_side.
  - intros cb. destruct cb; unfold timerCallback; walk agents_side.
Qed.

Lemma agentsKept_reachable t0 trace : agentsKept (run (mount t0) trace).
Proof.
  apply run_preserves; [apply agentsKept_step | apply agentsKept_resetSimulation].
Qed.

(** ** Flags, stage, timers and the call in flight *)

Ltac control_side := unfold keepsControl; intros; simpl in *; done.

Ltac stage_side := unfold atStage; intros; simpl in *; done.

Lemma hbind_write {B} (f : World -> World) (k : unit -> Handler B) w :
  hbind (write f) k w = k tt (f w).
Proof. reflexivity. Qed.

Lemma hbind_setAgents {B} f (k : unit -> Handler B) w :
  hbind (setAgents f) k w =
  match f (agents w) with
  | Some l => k tt (with_agents l w)
  | None => (w, None)
  end.
Proof. unfold hbind, setAgents. by destruct (f (agents w)). Qed.

Lemma timerCallback_stage cb w :
  simulationStep (fst (timerCallback cb w)) = stageOf cb.
Proof.
  destruct cb; unfold timerCallback, setSimulationStep; rewrite hbind_write;
    match goal with
    | |- simulationStep (fst (?h ?w')) = ?n =>
        apply (fun H : preserves (atStage n) h => H w' eq_refl)
    end; walk stage_side.
Qed.

Lemma timerCallback_control cb w :
  cb <> Step5 -> control (fst (timerCallback cb w)) = control w.
Proof.
  intros Hcb.
  apply (fun H : preserves (keepsControl (control w)) (timerCallback cb) => H w eq_refl).
  destruct cb; [| | | |done]; unfold timerCallback; walk control_side.
Qed.

Lemma completion_control w :
  control (fst (timerCallback Step5 w)) =
  (false, isOrchestrating w, timers w, planCalls w).
Proof. reflexivity. Qed.

Lemma resetSimulation_control w :
  control (fst (resetSimulation w)) = control w /\
  simulationStep (fst (resetSimulation w)) = 0%nat.
Proof. done. Qed.

Lemma startSimulation_busy w :
  isSimulating w || isOrchestrating w = true -> startSimulation w = (w, Some tt).
Proof. intros H. unfold startSimulation, startSimulation_of. by rewrite H. Qed.

Lemma startSimulation_idle w :
  isSimulating w = false -> isOrchestrating w = false ->
  control (fst (startSimulation w)) = (false, true, timers w, planCalls w ++ [userMission w]) /\
  simulationStep (fst (startSimulation w)) = 0%nat.
Proof.
  intros H1 H2. unfold startSimulation, startSimulation_of. rewrite H1, H2.
  split; [|done]. unfold control. simpl. by rewrite H1.
Qed.

Lemma enqueue_pendingSteps anchor plan :
  enqueue (anchor + 11500) Step5
    (enqueue (anchor + 8500) (Step4 plan)
       (enqueue (anchor + 5500) Step3
          (enqueue (anchor + 3500) (Step2 plan)
             (enqueue (anchor + 1500) (Step1 plan) [])))) =
  pendingSteps anchor plan.
Proof.
  unfold pendingSteps. simpl.
  repeat match goal with
         | |- context [?a <=? ?b] => destruct (Z.leb_spec a b); [|lia]; simpl
         end.
  reflexivity.
Qed.

(** The continuation either stops at the plan, having written nothing, or
    goes through and schedules the five callbacks. *)
Lemma startSimulation_resume_cases plan w :
  (mapPlan plan (agents w) = None /\ fst (startSimulation_resume plan w) = w) \/
  (exists l, mapPlan plan (agents w) = Some l /\
     agents (fst (startSimulation_resume plan w)) = l /\
     control (fst (startSimulation_resume plan w)) =
       (true, false,
        enqueue (now w + 11500) Step5
          (enqueue (now w + 8500) (Step4 plan)
             (enqueue (now w + 5500) Step3
                (enqueue (now w + 3500) (Step2 plan)
                   (enqueue (now w + 1500) (Step1 plan) (timers w))))),
        planCalls w) /\
     simulationStep (fst (startSimulation_resume plan w)) = 1%nat).
Proof.
  unfold startSimulation_resume. rewrite hbind_setAgents.
  destruct (mapPlan plan (agents w)) as [l|]; [right|left; done].
  exists l. done.
Qed.

Lemma generateReport_control w :
  control (fst (generateReport w)) = control w /\
  simulationStep (fst (generateReport w)) = simulationStep w.
Proof.
  unfold generateReport. split.
  - apply (fun H : preserves (keepsControl (control w)) (generateReport_of (logs w)) =>
             H w eq_refl).
    unfold generateReport_of. walk control_side.
  - apply (fun H : preserves (atStage (simulationStep w)) (generateReport_of (logs w)) =>
             H w eq_refl).
    unfold generateReport_of. walk stage_side.
Qed.

Lemma control_eq w s o t p :
  control w = (s, o, t, p) ->
  isSimulating w = s /\ isOrchestrating w = o /\ timers w = t /\ planCalls w = p.
Proof. unfold control. by intros [= -> -> -> ->]. Qed.

Lemma timerCallback_timers cb w : timers (fst (timerCallback cb w)) = timers w.
Proof.
  assert (cb = Step5 \/ cb <> Step5) as [->|Hcb]
    by (destruct cb; (by left) || (by right)); [done|].
  by destruct (control_eq _ _ _ _ _ (timerCallback_control cb w Hcb)) as (_ & _ & ? & _).
Qed.

Lemma coherent_ext w w' :
  control w' = control w -> simulationStep w' = simulationStep w ->
  coherent w -> coherent w'.
Proof.
  unfold coherent, control. intros [= -> -> -> ->] ->. done.
Qed.

Lemma coherent_intro w s o t p n :
  control w = (s, o, t, p) -> simulationStep w = n ->
  (if s then
     o = false /\ p = [] /\
     exists anchor plan k, (k <= 4)%nat /\ t = drop k (pendingSteps anchor plan)
   else
     t = [] /\ (n = 0%nat \/ n = 6%nat) /\ (length p <= 1)%nat /\
     (o = false -> p = [])) ->
  coherent w.
Proof. unfold coherent, control. by intros [= <- <- <- <-] <-. Qed.

Lemma coherent_step w e : coherent w -> coherent (step w e).
Proof.
  intros Hw. destruct e; simpl.
  - done.
  - (* start *)
    destruct (isSimulating w || isOrchestrating w) eqn:Hbusy.
    { by rewrite startSimulation_busy. }
    apply orb_false_elim in Hbusy as [Hsim Horch].
    destruct (startSimulation_idle w Hsim Horch) as [Hc Hs].
    eapply coherent_intro; [exact Hc | exact Hs |].
    unfold coherent in Hw. rewrite Hsim in Hw.
    destruct Hw as (Ht & _ & _ & Hp). rewrite (Hp Horch). simpl.
    repeat split; [done | by left | lia | done].
  - (* reset *)
    destruct (resetSimulation_control w) as [Hc Hs].
    eapply coherent_intro; [exact Hc | exact Hs |].
    unfold coherent in Hw. destruct (isSimulating w); [done|]. tauto.
  - (* report *)
    destruct (generateReport_control w) as [Hc Hs]. by eapply coherent_ext.
  - (* the plan call settles *)
    destruct (planCalls w) as [|mission rest] eqn:Hcalls; [done|].
    unfold coherent in Hw. rewrite Hcalls in Hw.
    destruct (isSimulating w) eqn:Hsim; [by destruct Hw as (_ & ? & _)|].
    destruct Hw as (Ht & Hstage & Hlen & Horch).
    destruct rest; [|simpl in Hlen; lia].
    destruct (isOrchestrating w) eqn:Ho; [|by specialize (Horch eq_refl)].
    set (w0 := with_planCalls [] w).
    destruct (startSimulation_resume_cases (callGeminiOrchestrator mission net) w0)
      as [[_ ->]|(l & _ & _ & Hc & Hs)].
    + apply (coherent_intro _ false true [] [] (simulationStep w)); [|done|by auto].
      unfold control, w0. simpl. by rewrite Hsim, Ho, Ht.
    + eapply coherent_intro; [exact Hc | exact Hs |].
      unfold w0. simpl. rewrite Ht, enqueue_pendingSteps.
      repeat split.
      exists (now w), (callGeminiOrchestrator mission net), 0%nat. split; [lia|done].
  - (* the summary call settles *)
    destruct (summaryCalls w); [done|]. by destruct (callGeminiSummary _ _).
  - done.
  - (* a timer fires *)
    destruct (timers w) as [|[due cb] rest] eqn:Htimers; [done|].
    destruct (due <=? now w); [|done].
    unfold coherent in Hw. rewrite Htimers in Hw.
    destruct (isSimulating w) eqn:Hsim; [|by destruct Hw].
    destruct Hw as (Horch & Hcalls & anchor & plan & k & Hk & Hdrop).
    set (w0 := with_timers rest w).
    assert (control w0 = (true, false, rest, [])) as Hw0.
    { unfold control, w0. simpl. by rewrite Hsim, Horch, Hcalls. }
    destruct k as [|[|[|[|[|k]]]]]; [..|lia]; simpl in Hdrop; simplify_eq.
    1-4: match goal with
         | |- coherent (fst (timerCallback ?cb _)) =>
             pose proof (timerCallback_control cb w0 ltac:(done)) as Hc
         end;
         rewrite Hw0 in Hc;
         (eapply coherent_intro; [exact Hc | reflexivity |]);
         repeat split.
    + exists anchor, plan, 1%nat. split; [lia|done].
    + exists anchor, plan, 2%nat. split; [lia|done].
    + exists anchor, plan, 3%nat. split; [lia|done].
    + exists anchor, plan, 4%nat. split; [lia|done].
    + eapply coherent_intro;
        [apply completion_control | apply (timerCallback_stage Step5) |].
      unfold w0. simpl. rewrite Horch, Hcalls. simpl. auto.
Qed.

Lemma coherent_mount t0 : coherent (mount t0).
Proof. unfold coherent. simpl. auto. Qed.

Lemma coherent_reachable t0 trace : coherent (run (mount t0) trace).
Proof. apply run_preserves; [apply coherent_step | apply coherent_mount]. Qed.

(** ** The properties of the specification *)

(** C3: the log never holds more than eight entries.  Each [addLog] puts
    its entry in front and keeps the first eight of the result; so after
    any sequence of appends that is not empty, or that starts from a log of
    at most eight entries, and in every world the mounted component can
    reach, the log has at most eight entries. *)
Theorem log_capped_at_eight :
  (forall w source message,
     logs (fst (addLog source message w)) =
     take 8 (newEntry w source message :: logs w)) /\
  (forall w calls,
     calls <> [] \/ (length (logs w) <= 8)%nat ->
     (length (logs (addLogs calls w)) <= 8)%nat) /\
  (forall t0 trace, (length (logs (run (mount t0) trace)) <= 8)%nat).
Proof.
  split; [done|]. split; [|apply logsBounded_reachable].
  assert (forall calls w, (length (logs w) <= 8)%nat ->
            (length (logs (addLogs calls w)) <= 8)%nat) as Hkeep.
  { induction calls as [|[source message] calls IH]; intros w Hw; [done|].
    apply (IH (fst (addLog source message w))). apply addLog_length. }
  intros w [|[source message] calls] [Hne|Hw]; try done.
  - apply (Hkeep calls (fst (addLog source message w))). apply addLog_length.
  - by apply Hkeep.
Qed.

Lemma updateStatusOf_defined id status l :
  Undef ∉ l -> is_Some (mapM (updateStatusOf id status) l).
Proof.
  intros Hl. apply mapM_is_Some, Forall_forall. intros s Hs.
  destruct s; simpl; eauto. by destruct Hl.
Qed.

(** C10: on an array of agent records (where no element is [undefined])
    [updateAgentStatus(id, status)] returns normally; it writes nothing but
    [agents]; the array keeps its length and order; an agent whose id is
    [id] gets the status and keeps every other field; every other element
    is the same as before; and when no agent has the id the array is the
    same as before. *)
Theorem updateAgentStatus_frame w id status :
  let w' := fst (updateAgentStatus id status w) in
  (Undef ∉ agents w -> snd (updateAgentStatus id status w) = Some tt) /\
  w' = with_agents (agents w') w /\
  length (agents w') = length (agents w) /\
  (forall i a, Undef ∉ agents w -> agents w !! i = Some (Full a) -> a_id a = id ->
     exists a', agents w' !! i = Some (Full a') /\
                a_status a' = status /\ sameButStatus a a') /\
  (forall i s, agents w !! i = Some s ->
     (forall a, s = Full a -> a_id a <> id) -> agents w' !! i = Some s) /\
  (forall i, agents w !! i = None -> agents w' !! i = None) /\
  ((forall a, Full a ∈ agents w -> a_id a <> id) -> agents w' = agents w).
Proof.
  unfold updateAgentStatus, setAgents.
  pose proof (updateStatusOf_defined id status (agents w)) as Hdefined.
  destruct (mapM (updateStatusOf id status) (agents w)) as [l'|] eqn:E;
    cbn [fst snd]; cycle 1.
  { repeat split; try done.
    - intros Hno. by destruct (Hdefined Hno).
    - by destruct w.
    - intros i a Hno. by destruct (Hdefined Hno). }
  clear Hdefined. apply mapM_Some in E.
  change (agents (with_agents l' w)) with l'.
  repeat split.
  - symmetry. by eapply Forall2_length.
  - intros i a _ Hi Hid.
    destruct (Forall2_lookup_l _ _ _ _ _ E Hi) as (s' & Hs' & Hupd).
    simpl in Hupd. apply String.eqb_eq in Hid. rewrite Hid in Hupd.
    exists (withStatus status a). by simplify_eq.
  - intros i s Hi Hs.
    destruct (Forall2_lookup_l _ _ _ _ _ E Hi) as (s' & Hs' & Hupd).
    rewrite Hs'. f_equal.
    destruct s as [a| | |]; simpl in Hupd; simplify_eq; try done.
    destruct (String.eqb (a_id a) id) eqn:Hid; [|done].
    apply String.eqb_eq in Hid. by destruct (Hs a eq_refl).
  - intros i Hi. apply lookup_ge_None. apply lookup_ge_None in Hi.
    by rewrite <- (Forall2_length _ _ _ E).
  - intros Hno. symmetry.
    induction E as [|s s' l l'' Hs _ IH]; [done|]. f_equal.
    + destruct s as [a| | |]; simpl in Hs; simplify_eq; try done.
      destruct (String.eqb (a_id a) id) eqn:Hid; [|done].
      apply String.eqb_eq in Hid. destruct (Hno a); [left|done].
    + apply IH. intros a Ha. apply Hno. by right.
Qed.

Lemma callGeminiOrchestrator_fails mission net :
  PlanCallFails net -> callGeminiOrchestrator mission net = fallbackPlan.
Proof.
  unfold callGeminiOrchestrator, orchestratorAttempt.
  intros [net' Hkey| |body|ok|ok data Htext|ok data text Htext Hparse].
  - by rewrite Hkey.
  - by destruct (String.eqb _ _).
  - by destruct (String.eqb _ _).
  - by destruct (String.eqb _ _), ok.
  - destruct (String.eqb _ _), ok; simpl; try done. by rewrite Htext.
  - destruct (String.eqb _ _), ok; simpl; try done. rewrite Htext. simpl. by rewrite Hparse.
Qed.

Lemma callGeminiOrchestrator_cases mission net :
  (PlanCallFails net /\ callGeminiOrchestrator mission net = fallbackPlan) \/
  (exists data text,
     apiKey <> EmptyString /\ net = Response true (Some data) /\
     responseText data = Some text /\
     JSON_parse text = Some (callGeminiOrchestrator mission net)).
Proof.
  destruct (String.eqb apiKey EmptyString) eqn:Hkey.
  { apply String.eqb_eq in Hkey. left.
    split; [by constructor | apply callGeminiOrchestrator_fails; by constructor]. }
  apply String.eqb_neq in Hkey.
  assert (forall n, PlanCallFails n ->
            PlanCallFails n /\ callGeminiOrchestrator mission n = fallbackPlan) as Hfail.
  { intros n Hn. split; [done | by apply callGeminiOrchestrator_fails]. }
  destruct net as [|ok body]; [left; apply Hfail, fails_in_transit|].
  destruct ok; [|left; apply Hfail, fails_by_status].
  destruct body as [data|]; [|left; apply Hfail, fails_body_not_json].
  destruct (responseText data) as [text|] eqn:Htext;
    [|left; by apply Hfail, fails_no_text].
  destruct (JSON_parse text) as [plan|] eqn:Hparse;
    [|left; by eapply Hfail, fails_text_not_json].
  right. exists data, text. repeat split; [done..|].
  unfold callGeminiOrchestrator, orchestratorAttempt.
  apply String.eqb_neq in Hkey. rewrite Hkey. simpl. rewrite Htext. simpl.
  by rewrite Hparse.
Qed.

Lemma completion_agents w :
  agents (fst (timerCallback Step5 w)) = map markSuccess (agents w) /\
  simulationStep (fst (timerCallback Step5 w)) = 6%nat.
Proof. done. Qed.

(** C1: when the completion callback of a run fires, in any world the
    mounted component can reach (whatever missions were typed and whatever
    the service answered), the stage is 6 and each of the five agents has
    status [success]. *)
Theorem completion_marks_all_success t0 trace due rest :
  let w := run (mount t0) trace in
  timers w = (due, Step5) :: rest -> due <= now w ->
  let w' := step w TimerFires in
  simulationStep w' = 6%nat /\
  fiveAgents (agents w') /\
  map statusOf (agents w') = replicate 5 (Some success).
Proof.
  intros w Htimers Hdue. simpl. rewrite Htimers.
  apply Z.leb_le in Hdue. rewrite Hdue.
  destruct (completion_agents (with_timers rest w)) as [-> ->].
  pose proof (agentsKept_reachable t0 trace) as Hfive. fold w in Hfive.
  split; [done|]. split; [by apply fiveAgents_markSuccess|].
  change (agents (with_timers rest w)) with (agents w).
  by destruct (fiveAgents_inv _ Hfive) as (a1 & a2 & a3 & a4 & a5 & -> & _).
Qed.

(** C2: the mounted component has exactly five agent records, with ids
    1 to 5 in this order and roles Orchestrator, Specialist, Specialist,
    Worker, Worker; every event (a click on start, reset or report, a
    settled remote call, a timer callback, typing, time passing) keeps this,
    and so do the plan mapping and the status updates on their own; hence
    it holds in every world the component can reach. *)
Theorem agents_roster_invariant :
  (forall t0, fiveAgents (agents (mount t0))) /\
  (forall w e, fiveAgents (agents w) -> fiveAgents (agents (step w e))) /\
  (forall w, fiveAgents (agents (fst (resetSimulation w)))) /\
  (forall plan l l', fiveAgents l -> mapPlan plan l = Some l' -> fiveAgents l') /\
  (forall id status l l',
     fiveAgents l -> mapM (updateStatusOf id status) l = Some l' -> fiveAgents l') /\
  (forall t0 trace, fiveAgents (agents (run (mount t0) trace))).
Proof.
  repeat split.
  - apply agentsKept_step.
  - apply fiveAgents_mapPlan.
  - apply fiveAgents_updateStatus.
  - apply agentsKept_reachable.
Qed.

(** C5: while a run is in progress, [startSimulation] returns at its guard
    and the world (agents, logs, stage, report, timers, calls in flight) is
    the same as before: whenever [isSimulating] or [isOrchestrating] is set,
    and in every reachable world whose stage is between 1 and 5, where
    [isSimulating] is set. *)
Theorem start_ignored_while_busy :
  (forall w, isSimulating w || isOrchestrating w = true ->
     startSimulation w = (w, Some tt) /\ step w ClickStart = w) /\
  (forall t0 trace,
     let w := run (mount t0) trace in
     (1 <= simulationStep w <= 5)%nat ->
     isSimulating w = true /\ step w ClickStart = w).
Proof.
  split.
  - intros w Hbusy. simpl. by rewrite startSimulation_busy.
  - intros t0 trace w Hstage.
    pose proof (coherent_reachable t0 trace) as Hw. fold w in Hw.
    unfold coherent in Hw. destruct (isSimulating w) eqn:Hsim.
    + split; [done|]. simpl. rewrite startSimulation_busy; [done|].
      by rewrite Hsim.
    + destruct Hw as (_ & [Hs|Hs] & _); lia.
Qed.

(** What the continuation of [startSimulation] writes into a roster of five
    agents when the plan is the fallback. *)
Lemma fallback_roles a1 a2 a3 a4 a5 :
  mapPlan fallbackPlan [Full a1; Full a2; Full a3; Full a4; Full a5] =
  Some [ Full a1;
         withRole (Some (Full a2)) (JStr "Logic Bot") (JStr "Planning")
           (JStr "Analyzing requirements");
         withRole (Some (Full a3)) (JStr "Resource Bot") (JStr "Logistics")
           (JStr "Gathering resources");
         withRole (Some (Full a4)) (JStr "Review Bot") (JStr "Quality Control")
           (JStr "Verifying output");
         Full a5 ].
Proof. reflexivity. Qed.

(** C4: when the remote plan call fails (no credential, a request lost in
    transit, a response that is not a success, a body or a text that is not
    JSON, a body without the text), the plan provider returns the fallback
    triple, and when the call settles the agents with ids 2, 3 and 4 get
    the names, specialties and tasks of the triple. *)
Theorem plan_failure_gives_fallback mission net :
  PlanCallFails net ->
  callGeminiOrchestrator mission net = fallbackPlan /\
  forall w rest,
    fiveAgents (agents w) -> planCalls w = mission :: rest ->
    let w' := step w (PlanSettles net) in
    exists a2 a3 a4,
      agents w' !! 1%nat = Some (Full a2) /\
      agents w' !! 2%nat = Some (Full a3) /\
      agents w' !! 3%nat = Some (Full a4) /\
      a_id a2 = "2"%string /\ a_id a3 = "3"%string /\ a_id a4 = "4"%string /\
      (a_name a2, a_specialty a2, a_currentTask a2) =
        (JStr "Logic Bot", JStr "Planning", JStr "Analyzing requirements") /\
      (a_name a3, a_specialty a3, a_currentTask a3) =
        (JStr "Resource Bot", JStr "Logistics", JStr "Gathering resources") /\
      (a_name a4, a_specialty a4, a_currentTask a4) =
        (JStr "Review Bot", JStr "Quality Control", JStr "Verifying output").
Proof.
  intros Hfail. pose proof (callGeminiOrchestrator_fails mission net Hfail) as Hplan.
  split; [done|]. intros w rest Hfive Hcalls. simpl. rewrite Hcalls, Hplan.
  destruct (fiveAgents_inv _ Hfive) as (a1 & a2 & a3 & a4 & a5 & Hagents & _ & H2 & H3 & H4 & _).
  destruct (startSimulation_resume_cases fallbackPlan (with_planCalls rest w))
    as [[Hnone _]|(l & Hsome & -> & _)];
    simpl in *; rewrite Hagents, fallback_roles in *; simplify_eq.
  eexists _, _, _. repeat split; simpl; congruence.
Qed.

(** C6, as the code has it: the plan provider returns either the fallback
    triple, which holds exactly three role records, when the call fails, or
    else the value the text of the response parses to, as it is and
    whatever its shape; it never mixes the two. *)
Theorem plan_is_parsed_text_or_fallback mission net :
  threeRoles fallbackPlan = true /\
  ((PlanCallFails net /\ callGeminiOrchestrator mission net = fallbackPlan) \/
   (exists data text,
      apiKey <> EmptyString /\ net = Response true (Some data) /\
      responseText data = Some text /\
      JSON_parse text = Some (callGeminiOrchestrator mission net))).
Proof. split; [done | apply callGeminiOrchestrator_cases]. Qed.

(** C7: [resetSimulation] puts the agents back to the template and the
    stage to 0 and leaves the pending timers where they are, so that the
    callback at the head of the queue, scheduled before the reset, is the
    one that runs once its time has come, and sets its stage.  In the
    trace start, plan settles (on the fallback), reset, 1500 ms pass, the
    timer fires: a run is in progress; the five timers it scheduled are
    still pending after the reset; what runs is its first callback; the
    stage goes from 0 to 2, agent 1 from [idle] to [working], and the log
    from the one entry of the reset to two. *)
Theorem reset_does_not_cancel_timers :
  (forall w,
     let w' := step w ClickReset in
     agents w' = initialAgents /\ simulationStep w' = 0%nat /\
     timers w' = timers w) /\
  (forall w due cb rest ms,
     timers w = (due, cb) :: rest -> due <= now w + Z.of_N ms ->
     let w' := step w ClickReset in
     let w'' := step (step w' (Elapse ms)) TimerFires in
     timers w' = (due, cb) :: rest /\ simulationStep w' = 0%nat /\
     w'' = fst (timerCallback cb (with_timers rest (step w' (Elapse ms)))) /\
     simulationStep w'' = stageOf cb /\ timers w'' = rest) /\
  (forall t0,
     let w := run (mount t0) [ClickStart; PlanSettles NetworkError] in
     let w' := step w ClickReset in
     let w'' := step (step w' (Elapse 1500)) TimerFires in
     isSimulating w = true /\
     timers w = pendingSteps t0 fallbackPlan /\ timers w' = timers w /\
     w'' = fst (timerCallback (Step1 fallbackPlan)
                  (with_timers (drop 1 (pendingSteps t0 fallbackPlan))
                     (step w' (Elapse 1500)))) /\
     simulationStep w' = 0%nat /\ simulationStep w'' = 2%nat /\
     map statusOf (agents w') = replicate 5 (Some idle) /\
     map statusOf (agents w'') = Some working :: replicate 4 (Some idle) /\
     map l_message (logs w') =
       ["Agentic Mesh Online. Enter a mission to begin."%string] /\
     map l_message (logs w'') =
       ["Decomposed mission. Assigning roles: Logic Bot, Resource Bot, Review Bot."%string;
        "Agentic Mesh Online. Enter a mission to begin."%string] /\
     timers w'' = drop 1 (pendingSteps t0 fallbackPlan)).
Proof.
  assert (forall w due cb rest ms,
            timers w = (due, cb) :: rest -> due <= now w + Z.of_N ms ->
            step (step (step w ClickReset) (Elapse ms)) TimerFires =
            fst (timerCallback cb
                   (with_timers rest (step (step w ClickReset) (Elapse ms))))) as Hfires.
  { intros w due cb rest ms Htimers Hdue. cbn [step].
    change (timers (with_now _ _)) with (timers w).
    change (now (with_now ?n _)) with n.
    change (now (fst (resetSimulation w))) with (now w).
    rewrite Htimers. apply Z.leb_le in Hdue. by rewrite Hdue. }
  split; [done|]. split.
  - intros w due cb rest ms Htimers Hdue. cbn zeta.
    rewrite (Hfires w due cb rest ms Htimers Hdue).
    split; [done|]. split; [done|]. split; [done|].
    split; [apply timerCallback_stage|]. by rewrite timerCallback_timers.
  - intros t0. cbn [run foldl]. unfold mount.
    set (w1 := step (fst (resetSimulation (initialWorld t0))) ClickStart).
    assert (planCalls w1 = ["Plan a 3-day trip to Tokyo"%string] /\
            agents w1 = initialAgents /\ timers w1 = [] /\ now w1 = t0)
      as (Hc & Ha & Ht & Hn) by done.
    clearbody w1.
    set (w2 := step w1 (PlanSettles NetworkError)).
    assert (isSimulating w2 = true /\ timers w2 = pendingSteps t0 fallbackPlan /\
            now w2 = t0) as (Hs2 & Ht2 & Hn2).
    { unfold w2. cbn [step]. rewrite Hc.
      rewrite (callGeminiOrchestrator_fails _ _ fails_in_transit).
      destruct (startSimulation_resume_cases fallbackPlan (with_planCalls [] w1))
        as [[Hnone _]|(l & _ & _ & Hctl & _)].
      - simpl in Hnone. by rewrite Ha in Hnone.
      - destruct (control_eq _ _ _ _ _ Hctl) as (Hsim & _ & Htimers & _).
        split; [done|]. split; [|done].
        rewrite Htimers. simpl. by rewrite Ht, Hn, enqueue_pendingSteps. }
    clearbody w2.
    split; [done|]. split; [done|]. split; [done|].
    assert (t0 + 1500 <= now w2 + Z.of_N 1500) as Hdue by (rewrite Hn2; simpl; lia).
    rewrite (Hfires w2 _ _ _ 1500%N Ht2 Hdue).
    split; [done|]. split; [done|].
    set (w3 := step w2 ClickReset).
    assert (agents w3 = initialAgents /\
            map l_message (logs w3) =
              ["Agentic Mesh Online. Enter a mission to begin."%string])
      as (Ha3 & Hl3) by done.
    clearbody w3.
    unfold timerCallback, setSimulationStep, updateAgentStatus.
    rewrite hbind_write, hbind_setAgents.
    change (agents (with_simulationStep _ _)) with (agents w3). rewrite Ha3.
    cbn -[take]. split; [done|]. split; [done|]. split; [done|].
    split; [done|]. split; [|done].
    destruct (logs w3) as [|entry [|? ?]]; try discriminate Hl3.
    simpl in *. by rewrite Hl3.
Qed.

(** Where the summary provider does fall back: no credential, a request
    lost in transit, a body that is not JSON, a body on which the path to
    the text throws. *)
Lemma callGeminiSummary_falls_back logs net :
  is_Some (logText logs) ->
  apiKey = EmptyString \/ net = NetworkError \/
  (exists ok, net = Response ok None) \/
  (exists ok data, net = Response ok (Some data) /\ responseText data = None) ->
  callGeminiSummary logs net = Some (JStr fallbackSummary).
Proof.
  intros [text Hlogs] Hfail. unfold callGeminiSummary, summaryAttempt.
  rewrite Hlogs. simpl. f_equal.
  destruct Hfail as [->|[->|[[ok ->]|(ok & data & -> & Htext)]]].
  - done.
  - by destruct (String.eqb _ _).
  - by destruct (String.eqb _ _).
  - destruct (String.eqb _ _); [done|]. simpl. by rewrite Htext.
Qed.

(** Where it does not: with a credential, the text of the body is the
    summary whatever the status of the response, and whatever the text is. *)
Lemma callGeminiSummary_ignores_status logs ok data text :
  is_Some (logText logs) -> apiKey <> EmptyString ->
  responseText data = Some text ->
  callGeminiSummary logs (Response ok (Some data)) = Some text.
Proof.
  intros [t Hlogs] Hkey Htext. unfold callGeminiSummary, summaryAttempt.
  rewrite Hlogs. simpl. apply String.eqb_neq in Hkey. rewrite Hkey. simpl.
  by rewrite Htext.
Qed.

(** C8, as the code has it: after [resetSimulation], from the initial state
    as from any other, the log holds exactly one entry, with source System
    and message Agentic Mesh Online. Enter a mission to begin., and the
    five agents are there, all [idle], at stage 0. *)
Theorem reset_leaves_one_entry_and_idle_agents w :
  let w' := step w ClickReset in
  (exists entry,
     logs w' = [entry] /\
     l_source entry = JStr "System" /\
     l_message entry = "Agentic Mesh Online. Enter a mission to begin."%string /\
     l_timestamp entry = timeString (now w)) /\
  fiveAgents (agents w') /\
  map statusOf (agents w') = replicate 5 (Some idle) /\
  simulationStep w' = 0%nat.
Proof.
  cbn [step]. unfold resetSimulation.
  rewrite hbind_setAgents. unfold setSimulationStep, setLogs, setMissionReport.
  rewrite !hbind_write, addLog_eq. cbn [fst].
  split; [|by repeat split].
  by exists (newEntry w (JStr "System") "Agentic Mesh Online. Enter a mission to begin.").
Qed.

(** ** Further properties of the code *)

(** X1: the colour of an agent's disc tells its status, and nothing else
    except for an idle agent, where it also tells the orchestrator from the
    others: two agents get the same classes exactly when they have the same
    status and, if idle, are both or neither the orchestrator. *)
Theorem getAgentColor_tells_status status type status' type' :
  getAgentColor status type = getAgentColor status' type' <->
  status = status' /\
  (status = idle -> (type = Orchestrator <-> type' = Orchestrator)).
Proof.
  split.
  - destruct status, type, status', type'; simpl; intros H;
      first [discriminate H | split; [done|]; intros; split; intros; done].
  - intros [<- Htype]. destruct status; simpl; try done.
    destruct type, type'; simpl; try done;
      destruct (Htype eq_refl) as [H1 H2]; first [by discriminate H1 | by discriminate H2].
Qed.

Lemma twoDigits_below_100 (k : nat) :
  (k < 100)%nat -> twoDigits (Z.of_nat k) = twoDigitString (Z.of_nat k).
Proof.
  intros Hk.
  assert (forallb (fun i => String.eqb (twoDigits (Z.of_nat i)) (twoDigitString (Z.of_nat i)))
            (seq 0 100) = true) as Hall by (vm_compute; reflexivity).
  rewrite forallb_forall in Hall. apply String.eqb_eq, Hall, in_seq. lia.
Qed.

Lemma twoDigits_spec n : 0 <= n < 100 -> twoDigits n = twoDigitString n.
Proof.
  intros Hn. rewrite <- (Z2Nat.id n) by lia. apply twoDigits_below_100. lia.
Qed.

(** X2: the time of a log entry is written as two decimal digits each for
    the hours, minutes and seconds, with colons between: eight characters
    for every clock reading and every time zone, with hours below 24 and
    minutes and seconds below 60. *)
Theorem timeString_format t :
  timeString t =
    twoDigitString (getHours t) +:+ ":" +:+ twoDigitString (getMinutes t) +:+ ":"
      +:+ twoDigitString (getSeconds t) /\
  String.length (timeString t) = 8%nat /\
  0 <= getHours t < 24 /\ 0 <= getMinutes t < 60 /\ 0 <= getSeconds t < 60.
Proof.
  assert (0 <= getHours t < 24) as Hh by (apply Z.mod_pos_bound; lia).
  assert (0 <= getMinutes t < 60) as Hm by (apply Z.mod_pos_bound; lia).
  assert (0 <= getSeconds t < 60) as Hs by (apply Z.mod_pos_bound; lia).
  assert (timeString t =
            twoDigitString (getHours t) +:+ ":" +:+ twoDigitString (getMinutes t) +:+ ":"
              +:+ twoDigitString (getSeconds t)) as Heq.
  { unfold timeString. by rewrite !twoDigits_spec by lia. }
  split; [done|]. split; [by rewrite Heq|]. repeat split; lia.
Qed.

Lemma timerCallback_besideTimeline cb w :
  besideTimeline (fst (timerCallback cb w)) = besideTimeline w.
Proof.
  apply (fun H : preserves (fun w' => besideTimeline w' = besideTimeline w)
                   (timerCallback cb) => H w eq_refl).
  destruct cb; unfold timerCallback; walk ltac:(intros; simpl in *; done).
Qed.

Lemma timerCallback_throws_before_logging cb w :
  (forall plan, cb <> Step4 plan) ->
  snd (timerCallback cb w) = None -> logs (fst (timerCallback cb w)) = logs w.
Proof.
  intros Hcb. destruct cb as [plan|plan| |plan|]; [| | |by destruct (Hcb plan)|];
    unfold timerCallback, updateAgentStatus, setSimulationStep;
    rewrite ?hbind_write; unfold hbind, setAgents, eval; simpl;
    repeat case_match; simplify_eq; simpl; try done.
Qed.

(** X3: every timer callback sets the stage it stands for, whatever the
    plan and even when it throws; none of them touches the clock, the
    timers, the calls in flight, the mission, the report or the
    orchestrating flag; only the completion callback writes [isSimulating],
    and it never throws; and a callback other than the execution one that
    throws has added nothing to the log. *)
Theorem timerCallback_effects cb w :
  let w' := fst (timerCallback cb w) in
  simulationStep w' = stageOf cb /\
  besideTimeline w' = besideTimeline w /\
  isSimulating w' = match cb with Step5 => false | _ => isSimulating w end /\
  (cb = Step5 -> snd (timerCallback cb w) = Some tt) /\
  ((forall plan, cb <> Step4 plan) -> snd (timerCallback cb w) = None ->
   logs w' = logs w).
Proof.
  cbn zeta. split; [apply timerCallback_stage|].
  split; [apply timerCallback_besideTimeline|]. split; [|split].
  - destruct cb; try done;
      match goal with
      | |- isSimulating (fst (timerCallback ?c _)) = _ =>
          by destruct (control_eq _ _ _ _ _ (timerCallback_control c w ltac:(done)))
               as (? & _)
      end.
  - by intros ->.
  - intros Hcb. by apply timerCallback_throws_before_logging.
Qed.

(** X4: runs never overlap.  In every world the mounted component can
    reach the pending timers are what is left of the five callbacks of one
    run, in the order of their offsets; timers are pending exactly while
    [isSimulating] is set; at most one plan call is in flight, and only
    while [isOrchestrating] is set and no timer is pending. *)
Theorem runs_never_overlap t0 trace :
  let w := run (mount t0) trace in
  (exists anchor plan k, (k <= 5)%nat /\ timers w = drop k (pendingSteps anchor plan)) /\
  (isSimulating w = true <-> timers w <> []) /\
  (isSimulating w = true -> isOrchestrating w = false) /\
  (length (planCalls w) <= 1)%nat /\
  (planCalls w <> [] -> isOrchestrating w = true /\ timers w = []).
Proof.
  intros w. pose proof (coherent_reachable t0 trace) as Hw. fold w in Hw.
  unfold coherent in Hw. destruct (isSimulating w) eqn:Hsim.
  - destruct Hw as (Horch & Hcalls & anchor & plan & k & Hk & Htimers).
    rewrite Hcalls, Htimers. repeat split; try done.
    + exists anchor, plan, k. split; [lia|done].
    + intros _. destruct k as [|[|[|[|[|k]]]]]; [done..|lia].
    + simpl. lia.
  - destruct Hw as (Htimers & _ & Hlen & Hcalls). rewrite Htimers.
    split; [exists 0, JNull, 5%nat; split; [lia|done]|].
    split; [done|]. split; [done|]. split; [done|].
    intros Hne. split; [|done].
    destruct (isOrchestrating w); [done|]. by destruct Hne, Hcalls.
Qed.

Lemma Forall_enqueue (P : Z * TimerCallback -> Prop) due cb q :
  P (due, cb) -> Forall P q -> Forall P (enqueue due cb q).
Proof.
  intros Hnew Hq. induction Hq as [|[d c] q Hd Hq IH]; simpl.
  - by constructor.
  - destruct (d <=? due); by repeat constructor.
Qed.

Lemma startSimulation_schedule w : schedule (fst (startSimulation w)) = schedule w.
Proof.
  unfold startSimulation.
  apply (fun H : preserves (fun w' => schedule w' = schedule w)
                   (startSimulation_of (isSimulating w) (isOrchestrating w) (userMission w))
         => H w eq_refl).
  unfold startSimulation_of. destruct (_ || _); walk ltac:(intros; simpl in *; done).
Qed.

Lemma generateReport_schedule w : schedule (fst (generateReport w)) = schedule w.
Proof.
  unfold generateReport.
  apply (fun H : preserves (fun w' => schedule w' = schedule w) (generateReport_of (logs w))
         => H w eq_refl).
  unfold generateReport_of. walk ltac:(intros; simpl in *; done).
Qed.

Lemma timerCallback_schedule cb w : schedule (fst (timerCallback cb w)) = schedule w.
Proof.
  pose proof (timerCallback_besideTimeline cb w) as H.
  unfold besideTimeline in H. unfold schedule. congruence.
Qed.

Lemma startSimulation_resume_now plan w : now (fst (startSimulation_resume plan w)) = now w.
Proof.
  apply (fun H : preserves (fun w' => now w' = now w) (startSimulation_resume plan)
         => H w eq_refl).
  unfold startSimulation_resume. walk ltac:(intros; simpl in *; done).
Qed.

Lemma dueSoon_ext w w' : schedule w' = schedule w -> dueSoon w -> dueSoon w'.
Proof. unfold schedule, dueSoon. by intros [= -> ->]. Qed.

Lemma dueSoon_step w e : dueSoon w -> dueSoon (step w e).
Proof.
  intros Hw. destruct e; simpl.
  - done.
  - by eapply dueSoon_ext; [apply startSimulation_schedule|].
  - done.
  - by eapply dueSoon_ext; [apply generateReport_schedule|].
  - destruct (planCalls w) as [|mission rest]; [done|].
    set (plan := callGeminiOrchestrator mission net). set (w0 := with_planCalls rest w).
    pose proof (startSimulation_resume_now plan w0) as Hnow.
    destruct (startSimulation_resume_cases plan w0) as [[_ ->]|(l & _ & _ & Hc & _)]; [done|].
    destruct (control_eq _ _ _ _ _ Hc) as (_ & _ & Htimers & _).
    unfold dueSoon. rewrite Htimers, Hnow. change (now w0) with (now w).
    change (timers w0) with (timers w).
    repeat (apply Forall_enqueue; [simpl; lia|]). done.
  - destruct (summaryCalls w); [done|]. by destruct (callGeminiSummary _ _).
  - unfold dueSoon in *. simpl. eapply Forall_impl; [done|]. simpl. lia.
  - destruct (timers w) as [|[due cb] rest] eqn:Htimers; [done|].
    destruct (due <=? now w); [|done].
    eapply dueSoon_ext; [apply timerCallback_schedule|].
    unfold dueSoon in *. rewrite Htimers in Hw. by inversion Hw.
Qed.

Lemma dueSoon_reachable t0 trace : dueSoon (run (mount t0) trace).
Proof. apply run_preserves; [apply dueSoon_step | by constructor]. Qed.

Lemma fire_one w anchor plan k :
  (k < 4)%nat ->
  control w = (true, false, drop k (pendingSteps anchor plan), []) ->
  anchor + 11500 <= now w ->
  control (step w TimerFires) = (true, false, drop (S k) (pendingSteps anchor plan), []) /\
  now (step w TimerFires) = now w.
Proof.
  intros Hk Hc Hnow.
  destruct (control_eq _ _ _ _ _ Hc) as (Hsim & Horch & Htimers & Hcalls).
  destruct k as [|[|[|[|k]]]]; [..|lia]; simpl in Htimers; simpl;
    rewrite Htimers;
    match goal with
    | |- context [?d <=? now w] => destruct (Z.leb_spec d (now w)); [|lia]
    end;
    match goal with
    | |- context [timerCallback ?cb ?w0] =>
        pose proof (timerCallback_control cb w0 ltac:(done)) as Hc';
        pose proof (timerCallback_schedule cb w0) as Hs'
    end;
    unfold schedule in Hs'; injection Hs' as Hn' _;
    (split; [|done]); rewrite Hc'; unfold control; simpl;
    by rewrite Hsim, Horch, Hcalls.
Qed.

Lemma fire_last w anchor plan :
  control w = (true, false, drop 4 (pendingSteps anchor plan), []) ->
  anchor + 11500 <= now w -> fiveAgents (agents w) ->
  let w' := step w TimerFires in
  control w' = (false, false, [], []) /\ simulationStep w' = 6%nat /\
  map statusOf (agents w') = replicate 5 (Some success).
Proof.
  intros Hc Hnow Hfive.
  destruct (control_eq _ _ _ _ _ Hc) as (Hsim & Horch & Htimers & Hcalls).
  simpl in Htimers. simpl. rewrite Htimers.
  destruct (Z.leb_spec (anchor + 11500) (now w)); [|lia].
  destruct (completion_agents (with_timers [] w)) as [-> ->].
  rewrite completion_control. simpl. rewrite Horch, Hcalls.
  split; [done|]. split; [done|].
  by destruct (fiveAgents_inv _ Hfive) as (a1 & a2 & a3 & a4 & a5 & -> & _).
Qed.

Lemma fire_nothing w n : timers w = [] -> run w (replicate n TimerFires) = w.
Proof. intros Hw. induction n as [|n IH]; simpl; [done|]. by rewrite Hw. Qed.

(** X6: reset leaves the run alone.  [resetSimulation] writes neither of
    the busy flags, nor the timers, the calls in flight, the mission or the
    clock, so the start button and the mission input are as disabled
    after it as before; and after a reset made while a run is in progress
    a click on start is still ignored. *)
Theorem reset_keeps_run_state w :
  let w' := step w ClickReset in
  control w' = control w /\ reporting w' = reporting w /\
  userMission w' = userMission w /\ now w' = now w /\
  startDisabled w' = startDisabled w /\
  missionInputDisabled w' = missionInputDisabled w /\
  (isSimulating w || isOrchestrating w = true -> step w' ClickStart = w').
Proof.
  cbn zeta. repeat split.
  intros Hbusy. cbn [step]. by rewrite (startSimulation_busy (fst (resetSimulation w))).
Qed.

Lemma assignRole_cases plan k i l l' :
  assignRole plan k i l = Some l' ->
  l' = l \/ exists name specialty task,
              l' = array_set i (withRole (l !! i) name specialty task) l.
Proof.
  unfold assignRole. intros H.
  destruct (Get plan "agents") as [planAgents|]; [|done]. simpl in H.
  destruct (Get planAgents k) as [r|]; [|done]. simpl in H.
  destruct (truthy r); [|left; by simplify_eq].
  destruct (Get r "name") as [name|]; [|done]. simpl in H.
  destruct (Get r "specialty") as [specialty|]; [|done]. simpl in H.
  destruct (Get r "task") as [task|]; [|done]. simpl in H.
  right. exists name, specialty, task. by simplify_eq.
Qed.

(** X7: the plan mapping writes only names, specialties and tasks, and
    only those of the second, third and fourth agent.  Whatever the plan,
    when the updater returns on an array of five agent records, the first
    and the fifth record are the same as before, and the other three keep
    their id, role, position and status. *)
Theorem mapPlan_frame plan a1 a2 a3 a4 a5 l' :
  mapPlan plan [Full a1; Full a2; Full a3; Full a4; Full a5] = Some l' ->
  exists b2 b3 b4,
    l' = [Full a1; Full b2; Full b3; Full b4; Full a5] /\
    sameButRole a2 b2 /\ sameButRole a3 b3 /\ sameButRole a4 b4.
Proof.
  unfold mapPlan. intros H.
  change (spread [Full a1; Full a2; Full a3; Full a4; Full a5])
    with [Full a1; Full a2; Full a3; Full a4; Full a5] in H.
  destruct (assignRole plan "0" 1 _) as [l1|] eqn:E1; [|done]. simpl in H.
  destruct (assignRole plan "1" 2 l1) as [l2|] eqn:E2; [|done]. simpl in H.
  apply assignRole_cases in E1 as [->|(n1 & s1 & t1 & ->)];
    apply assignRole_cases in E2 as [->|(n2 & s2 & t2 & ->)];
    apply assignRole_cases in H as [->|(n3 & s3 & t3 & ->)];
    vm_compute; eexists _, _, _; (split; [reflexivity|]); by repeat split.
Qed.

(** X8: the guards of the plan mapping.  When the plan holds no array of
    agents to read ([plan.agents] is [undefined] or [null], or the plan
    itself is) the updater throws; when the first three entries are there
    but falsy (an empty array, say) it changes nothing and returns the copy
    of the array. *)
Theorem mapPlan_guards plan l :
  ((Get plan "agents" = None \/ Get plan "agents" = Some JUndefined \/
    Get plan "agents" = Some JNull) -> mapPlan plan l = None) /\
  (forall r0 r1 r2,
     planAgent plan "0" = Some r0 -> planAgent plan "1" = Some r1 ->
     planAgent plan "2" = Some r2 ->
     truthy r0 = false -> truthy r1 = false -> truthy r2 = false ->
     mapPlan plan l = Some (spread l)).
Proof.
  split.
  - unfold mapPlan, assignRole. by intros [->|[->| ->]].
  - unfold planAgent, mapPlan, assignRole. intros r0 r1 r2 H0 H1 H2 T0 T1 T2.
    destruct (Get plan "agents") as [planAgents|]; [|done]. simpl in *.
    by rewrite H0, H1, H2; simpl; rewrite T0, T1, T2.
Qed.

(** Brings a world whose agents are the five of the roster to five records
    with their ids spelled out. *)
Ltac roster_agents w H :=
  let a1 := fresh "a1" in let a2 := fresh "a2" in let a3 := fresh "a3" in
  let a4 := fresh "a4" in let a5 := fresh "a5" in let Hl := fresh "Hl" in
  destruct (fiveAgents_inv _ H) as (a1 & a2 & a3 & a4 & a5 & Hl & ? & ? & ? & ? & ?);
  destruct a1, a2, a3, a4, a5; simpl in *; simplify_eq; simpl in *.

(** X9: on a plan of three role records of strings a run goes through
    without an exception.  When the plan settles on five agents of the
    roster, agents 2, 3 and 4 get the three names, specialties and tasks;
    each of the five callbacks returns normally; the first logs the three
    names, the second the first two specialties, and the fourth the first
    two tasks under the first two names. *)
Theorem well_formed_plan_runs n0 s0 t0 n1 s1 t1 n2 s2 t2 w :
  let plan := rolePlan (planRecord n0 s0 t0) (planRecord n1 s1 t1) (planRecord n2 s2 t2) in
  fiveAgents (agents w) ->
  (exists a1 a2 a3 a4 a5,
     agents w = [Full a1; Full a2; Full a3; Full a4; Full a5] /\
     mapPlan plan (agents w) =
       Some [ Full a1;
              withRole (Some (Full a2)) (JStr n0) (JStr s0) (JStr t0);
              withRole (Some (Full a3)) (JStr n1) (JStr s1) (JStr t1);
              withRole (Some (Full a4)) (JStr n2) (JStr s2) (JStr t2);
              Full a5 ]) /\
  snd (timerCallback (Step1 plan) w) = Some tt /\
  snd (timerCallback (Step2 plan) w) = Some tt /\
  snd (timerCallback Step3 w) = Some tt /\
  snd (timerCallback (Step4 plan) w) = Some tt /\
  snd (timerCallback Step5 w) = Some tt /\
  shown 1 (fst (timerCallback (Step1 plan) w)) =
    [(JStr "Orchestrator LLM",
      "Decomposed mission. Assigning roles: " +:+ (n0 +:+ ", " +:+ n1 +:+ ", " +:+ n2) +:+ ".")] /\
  shown 1 (fst (timerCallback (Step2 plan) w)) =
    [(JStr "Registry",
      "Lookup successful: Found specialized agents for " +:+ s0 +:+ " and " +:+ s1 +:+ ".")] /\
  shown 2 (fst (timerCallback (Step4 plan) w)) =
    [(JStr n1, t1 +:+ " - In Progress."); (JStr n0, t0 +:+ " - Complete.")].
Proof.
  intros plan Hfive. split.
  { destruct (fiveAgents_inv _ Hfive) as (a1 & a2 & a3 & a4 & a5 & Hl & _).
    exists a1, a2, a3, a4, a5. split; [done|]. by rewrite Hl. }
  destruct w as [l ? ? ? ? ? ? ? ? ? ? ? ?]. simpl in Hfive.
  roster_agents l Hfive. by repeat split.
Qed.

(** X10: what each stage does to the statuses, whatever the plan.  On a
    world whose agents are the five of the roster: the first callback sets
    agent 1 to [working]; the second changes no status; the third sets
    agent 1 to [communicating] and agents 2, 3 and 4 to [working]; the
    fourth sets agent 2 to [communicating] and agent 5 to [working]; the
    fifth sets all to [success]; and none changes an id, a role, a name, a
    specialty, a task or a position. *)
Theorem status_timeline plan w :
  fiveAgents (agents w) ->
  let statuses cb := map statusOf (agents (fst (timerCallback cb w))) in
  let before := map statusOf (agents w) in
  statuses (Step1 plan) = <[0%nat := Some working]> before /\
  statuses (Step2 plan) = before /\
  statuses Step3 =
    [Some communicating; Some working; Some working; Some working] ++ drop 4 before /\
  statuses (Step4 plan) = <[1%nat := Some communicating]> (<[4%nat := Some working]> before) /\
  statuses Step5 = replicate 5 (Some success) /\
  forall cb i a,
    agents w !! i = Some (Full a) ->
    exists a', agents (fst (timerCallback cb w)) !! i = Some (Full a') /\ sameButStatus a a'.
Proof.
  intros Hfive.
  assert (forall cb, exists st1 st2 st3 st4 st5,
            agents (fst (timerCallback cb w)) =
              zip_with (fun a st => match a with Full r => Full (withStatus st r) | _ => a end)
                (agents w) [st1; st2; st3; st4; st5]) as Hshape.
  { intros cb. destruct w as [l ? ? ? ? ? ? ? ? ? ? ? ?]. simpl in Hfive.
    roster_agents l Hfive.
    destruct cb as [p|p| |p|];
      unfold timerCallback, updateAgentStatus, setSimulationStep;
      rewrite ?hbind_write; unfold hbind, setAgents, eval; simpl;
      repeat case_match; simplify_eq; simpl;
      by eexists _, _, _, _, _. }
  cbn zeta. repeat split.
  1-5: destruct w as [l ? ? ? ? ? ? ? ? ? ? ? ?]; simpl in Hfive;
       roster_agents l Hfive;
       unfold timerCallback, updateAgentStatus, setSimulationStep;
       rewrite ?hbind_write; unfold hbind, setAgents, eval; simpl;
       repeat case_match; simplify_eq; simpl; done.
  intros cb i a Hi. destruct (Hshape cb) as (st1 & st2 & st3 & st4 & st5 & ->).
  destruct (fiveAgents_inv _ Hfive) as (a1 & a2 & a3 & a4 & a5 & Hl & _).
  rewrite Hl in *.
  destruct i as [|[|[|[|[|i]]]]]; simpl in Hi; simplify_eq; simpl;
    eexists; (split; [reflexivity|]); by repeat split.
Qed.

Lemma logText_stringSources logs : stringSources logs -> is_Some (logText logs).
Proof.
  intros Hlogs. unfold logText.
  assert (is_Some (mapM logLine logs)) as [lines ->]; [|by eexists].
  apply mapM_is_Some. eapply Forall_impl; [exact Hlogs|].
  intros entry [s Hs]. unfold logLine. simpl. rewrite Hs. by eexists.
Qed.

(** X11: the summary provider on a log whose sources are strings: building
    the prompt does not throw, and when there is no credential, the request
    is lost in transit, the body is not JSON, or reading the text out of the
    body throws, the provider returns the fallback sentence. *)
Theorem summary_falls_back logs net :
  stringSources logs ->
  apiKey = EmptyString \/ net = NetworkError \/
  (exists ok, net = Response ok None) \/
  (exists ok data, net = Response ok (Some data) /\ responseText data = None) ->
  callGeminiSummary logs net = Some (JStr fallbackSummary).
Proof.
  intros Hlogs. apply callGeminiSummary_falls_back. by apply logText_stringSources.
Qed.

Lemma responseText_answer text pf cf df f ps cs :
  responseText (answer text pf cf df f ps cs) = Some text.
Proof. reflexivity. Qed.

(** X12: what the providers read of an answer.  With a credential and a
    success response, the plan provider returns what the text of the first
    part of the first candidate parses to, and the summary provider (on a
    log whose sources are strings) returns that text itself; further
    candidates, parts and fields of the body are not read. *)
Theorem providers_read_first_part mission logs text plan pf cf df f ps cs :
  apiKey <> EmptyString -> JSON_parse text = Some plan -> stringSources logs ->
  callGeminiOrchestrator mission (Response true (Some (answer text pf cf df f ps cs))) = plan /\
  callGeminiSummary logs (Response true (Some (answer text pf cf df f ps cs))) = Some text.
Proof.
  intros Hkey Hparse Hlogs. split.
  - unfold callGeminiOrchestrator, orchestratorAttempt.
    apply String.eqb_neq in Hkey. rewrite Hkey. simpl. by rewrite Hparse.
  - apply callGeminiSummary_ignores_status;
      [by apply logText_stringSources | done | apply responseText_answer].
Qed.

(** X14: a report asked for before a reset still lands after it.  Reset
    clears the report and does not touch the call in flight; when that
    call settles afterwards, its summary becomes the report of the reset
    component and the generating flag is cleared. *)
Theorem report_lands_after_reset w sent rest net summary :
  summaryCalls w = sent :: rest -> callGeminiSummary sent net = Some summary ->
  missionReport (step w ClickReset) = JNull /\
  summaryCalls (step w ClickReset) = sent :: rest /\
  let w' := step (step w ClickReset) (SummarySettles net) in
  missionReport w' = summary /\ isGeneratingReport w' = false /\
  simulationStep w' = 0%nat /\ summaryCalls w' = rest.
Proof.
  intros Hcalls Hsummary. split; [done|]. split; [done|].
  cbn zeta. cbn [step].
  change (summaryCalls (fst (resetSimulation w))) with (summaryCalls w).
  by rewrite Hcalls, Hsummary.
Qed.

(** X15: a start that is not ignored.  When neither busy flag is set,
    [startSimulation] sets [isOrchestrating], clears the report, puts the
    stage to 0, replaces the log by two entries (the request with the
    mission in quotes, then the consultation of the service), sends the
    mission to the plan provider, and leaves agents, timers and
    [isSimulating] as they are. *)
Theorem start_when_idle w :
  isSimulating w = false -> isOrchestrating w = false ->
  let w' := step w ClickStart in
  isOrchestrating w' = true /\ isSimulating w' = false /\
  missionReport w' = JNull /\ simulationStep w' = 0%nat /\
  shown 8 w' =
    [(JStr "Orchestrator LLM", "Consulting Gemini API for agent decomposition..."%string);
     (JStr "User", "Request received: " +:+ dquote +:+ userMission w +:+ dquote)] /\
  planCalls w' = planCalls w ++ [userMission w] /\
  agents w' = agents w /\ timers w' = timers w.
Proof.
  intros Hsim Horch. cbn zeta. cbn [step].
  unfold startSimulation, startSimulation_of. rewrite Hsim, Horch. simpl.
  by rewrite Hsim.
Qed.

Lemma activeAgents_records l :
  Forall (fun s => exists a, s = Full a) l ->
  exists n, activeAgents l = Some n /\ (n <= length l)%nat /\
    (n = 0%nat <-> Forall (fun s => statusOf s = Some idle) l) /\
    (Forall (fun s => statusOf s = Some success) l -> n = length l).
Proof.
  induction 1 as [|s l [a ->] _ (n & Hn & Hle & Hzero & Hall)].
  - exists 0%nat. by repeat split.
  - simpl. rewrite Hn. simpl. destruct (a_status a) eqn:Hst.
    + exists n. split; [done|]. split; [lia|]. split.
      * split.
        -- intros ->. constructor; [by simpl; rewrite Hst | by apply Hzero].
        -- intros Hidle. apply Hzero. by inversion Hidle.
      * intros Hsuccess. inversion Hsuccess as [|? ? Hhead]. simpl in Hhead. congruence.
    + exists (S n). split; [done|]. split; [lia|]. split.
      * split; [done|]. intros Hidle. inversion Hidle as [|? ? Hhead]. simpl in Hhead. congruence.
      * intros Hsuccess. inversion Hsuccess as [|? ? Hhead]. simpl in Hhead. congruence.
    + exists (S n). split; [done|]. split; [lia|]. split.
      * split; [done|]. intros Hidle. inversion Hidle as [|? ? Hhead]. simpl in Hhead. congruence.
      * intros Hsuccess. inversion Hsuccess as [|? ? Hhead]. simpl in Hhead. congruence.
    + exists (S n). split; [done|]. split; [lia|]. split.
      * split; [done|]. intros Hidle. inversion Hidle as [|? ? Hhead]. simpl in Hhead. congruence.
      * intros Hsuccess. inversion Hsuccess. f_equal. by apply Hall.
Qed.

(** X16: the counter of active agents in the footer.  In every world the
    mounted component can reach, counting the agents that are not idle
    does not throw and gives a number between 0 and 5, which is 0 exactly
    when all five agents are idle and is 5 when all have status
    [success]. *)
Theorem active_agents_counter t0 trace :
  let w := run (mount t0) trace in
  exists n, activeAgents (agents w) = Some n /\ (n <= 5)%nat /\
    (n = 0%nat <-> map statusOf (agents w) = replicate 5 (Some idle)) /\
    (map statusOf (agents w) = replicate 5 (Some success) -> n = 5%nat).
Proof.
  intros w. pose proof (agentsKept_reachable t0 trace) as Hfive. fold w in Hfive.
  destruct (fiveAgents_inv _ Hfive) as (a1 & a2 & a3 & a4 & a5 & Hl & _).
  destruct (activeAgents_records (agents w)) as (n & Hn & Hle & Hzero & Hall).
  { rewrite Hl. repeat constructor; by eexists. }
  exists n. rewrite Hl in *. split; [done|]. split; [done|]. split.
  - rewrite Hzero. split.
    + intros Hidle. rewrite !Forall_cons in Hidle. simpl in Hidle.
      destruct Hidle as (E1 & E2 & E3 & E4 & E5 & _). simpl. congruence.
    + simpl. intros [= E1 E2 E3 E4 E5]. repeat constructor; simpl; congruence.
  - simpl. intros [= E1 E2 E3 E4 E5]. apply Hall.
    repeat constructor; simpl; congruence.
Qed.

Lemma startSimulation_reporting w :
  reporting (fst (startSimulation w)) = reporting w.
Proof.
  unfold startSimulation.
  apply (fun H : preserves (fun w' => reporting w' = reporting w)
                   (startSimulation_of (isSimulating w) (isOrchestrating w) (userMission w))
         => H w eq_refl).
  unfold startSimulation_of. destruct (_ || _); walk ltac:(intros; simpl in *; done).
Qed.

Lemma startSimulation_resume_reporting plan w :
  reporting (fst (startSimulation_resume plan w)) = reporting w.
Proof.
  apply (fun H : preserves (fun w' => reporting w' = reporting w)
                   (startSimulation_resume plan) => H w eq_refl).
  unfold startSimulation_resume. walk ltac:(intros; simpl in *; done).
Qed.

Lemma startSimulation_resume_planCalls plan w :
  planCalls (fst (startSimulation_resume plan w)) = planCalls w.
Proof.
  destruct (startSimulation_resume_cases plan w) as [[_ ->]|(l & _ & _ & Hc & _)]; [done|].
  by destruct (control_eq _ _ _ _ _ Hc) as (_ & _ & _ & ?).
Qed.

Lemma generateReport_cases w :
  fst (generateReport w) = with_isGeneratingReport true w \/
  fst (generateReport w) =
    with_summaryCalls (summaryCalls w ++ [logs w]) (with_isGeneratingReport true w).
Proof.
  unfold generateReport, generateReport_of, setIsGeneratingReport.
  rewrite hbind_write. unfold hbind, eval.
  destruct (logText (logs w)); [by right | by left].
Qed.

Lemma orderly_ext w w' :
  reporting w' = reporting w -> planCalls w' = planCalls w -> orderly w -> orderly w'.
Proof. unfold orderly, reporting. by intros [= -> ->] ->. Qed.

Lemma orderly_pageStep w e : orderly w -> orderly (pageStep w e).
Proof.
  intros Hw. unfold pageStep. destruct (enabled w e) eqn:He; [|done].
  destruct e; cbn [step].
  - done.
  - (* start *)
    unfold enabled, startDisabled in He.
    apply negb_true_iff, orb_false_elim in He as [He Hmission].
    apply orb_false_elim in He as [Hsim Horch].
    apply String.eqb_neq in Hmission.
    destruct (startSimulation_idle w Hsim Horch) as [Hc _].
    destruct (control_eq _ _ _ _ _ Hc) as (_ & _ & _ & Hcalls).
    pose proof (startSimulation_reporting w) as Hr.
    unfold orderly, reporting in *. injection Hr as -> ->. rewrite Hcalls.
    destruct Hw as (H1 & H2 & H3). repeat split; [done..|].
    apply Forall_app. split; [done|]. by constructor.
  - done.
  - (* report *)
    unfold enabled, reportButtonDisabled in He.
    apply andb_true_iff in He as [_ Hgen]. apply negb_true_iff in Hgen.
    destruct Hw as (H1 & H2 & H3). specialize (H1 Hgen).
    destruct (generateReport_cases w) as [-> | ->]; unfold orderly; simpl;
      rewrite H1; simpl; repeat split; (done || lia).
  - (* the plan call settles *)
    destruct (planCalls w) as [|mission rest] eqn:Hcalls; [done|].
    eapply (orderly_ext (with_planCalls rest w));
      [apply startSimulation_resume_reporting
      | apply startSimulation_resume_planCalls |].
    destruct Hw as (H1 & H2 & H3). unfold orderly. simpl.
    rewrite Hcalls in H3. by inversion H3.
  - (* the summary call settles *)
    destruct (summaryCalls w) as [|sent rest] eqn:Hcalls; [done|].
    destruct Hw as (H1 & H2 & H3). rewrite Hcalls in H2.
    destruct rest; [|simpl in H2; lia].
    destruct (callGeminiSummary sent net); unfold orderly; simpl;
      repeat split; (done || lia).
  - done.
  - (* a timer fires *)
    destruct (timers w) as [|[due cb] rest]; [done|].
    destruct (due <=? now w); [|done].
    pose proof (timerCallback_besideTimeline cb (with_timers rest w)) as Hb.
    unfold besideTimeline in Hb. simpl in Hb. injection Hb as _ _ Hp _ _ _ Hs Hg.
    eapply (orderly_ext w); [|done|done].
    unfold reporting. by rewrite Hs, Hg.
Qed.

Lemma pageRun_run trace : forall w, exists trace', pageRun w trace = run w trace'.
Proof.
  induction trace as [|e trace IH]; intros w.
  - by exists [].
  - change (pageRun w (e :: trace)) with (pageRun (pageStep w e) trace).
    destruct (IH (pageStep w e)) as [trace' ->].
    unfold pageStep. destruct (enabled w e); [by exists (e :: trace') | by exists trace'].
Qed.

(** X13: a session at the page.  When the user can only do what the page
    offers (typing and start as their [disabled] says, the report button
    only where it is rendered and enabled), every world of the session is
    one the event loop reaches; at most one report request is in flight,
    and none while [isGeneratingReport] is clear; and no empty mission is
    sent to the plan provider. *)
Theorem page_session_is_orderly t0 trace :
  let w := pageRun (mount t0) trace in
  (exists trace', w = run (mount t0) trace') /\
  (isGeneratingReport w = false -> summaryCalls w = []) /\
  (length (summaryCalls w) <= 1)%nat /\
  Forall (fun mission => mission <> EmptyString) (planCalls w).
Proof.
  cbn zeta. split; [apply pageRun_run|].
  change (orderly (pageRun (mount t0) trace)).
  assert (orderly (mount t0)) as Hmount.
  { unfold orderly. simpl. repeat split; (done || lia || constructor). }
  revert Hmount. generalize (mount t0). unfold pageRun.
  induction trace as [|e trace IH]; intros w Hw; [done|].
  simpl. by apply IH, orderly_pageStep.
Qed.

(** ** The component stays mounted through a run *)

Lemma renders_iff w :
  renders w = true <->
  agentsRender (agents w) = true /\ logsRender (logs w) = true /\
  renderable (missionReport w) = true.
Proof. unfold renders. rewrite !andb_true_iff. tauto. Qed.

Lemma logsRender_take n logs : logsRender logs = true -> logsRender (take n logs) = true.
Proof.
  unfold logsRender. revert n. induction logs as [|entry logs IH]; intros [|n]; simpl; try done.
  rewrite !andb_true_iff. intros [Hentry Hlogs]. split; [done|]. by apply IH.
Qed.

Lemma logsRender_addLog source message :
  renderable source = true ->
  preserves (fun w => logsRender (logs w) = true) (addLog source message).
Proof.
  intros Hsource w Hw. rewrite addLog_eq. cbn [fst]. unfold with_logs. cbn [logs].
  apply logsRender_take. unfold logsRender. simpl. rewrite Hsource. exact Hw.
Qed.

Lemma preserves_eval_bind {A B} (P : World -> Prop) (o : option A) (k : A -> Handler B) :
  (forall a, o = Some a -> preserves P (k a)) -> preserves P (hbind (eval o) k).
Proof.
  intros Hk w Hw. unfold hbind, eval. destruct o as [a|]; [by apply Hk|done].
Qed.

Lemma sourcePrintable_name plan k name :
  sourcePrintable plan k = true ->
  (a ← planAgent plan k; Get a "name") = Some name -> renderable name = true.
Proof. unfold sourcePrintable. intros H E. by rewrite E in H. Qed.

(** A callback leaves the sources of the log printable, when those it
    takes from the plan are. *)
Lemma timerCallback_logsRender cb w :
  match cb with
  | Step4 plan => sourcePrintable plan "0" = true /\ sourcePrintable plan "1" = true
  | _ => True
  end ->
  logsRender (logs w) = true ->
  logsRender (logs (fst (timerCallback cb w))) = true.
Proof.
  intros Hcb.
  apply (fun H : preserves (fun w' => logsRender (logs w') = true) (timerCallback cb) => H w).
  destruct cb; [| | |destruct Hcb as [H0 H1]|]; unfold timerCallback;
    repeat match goal with
    | |- preserves _ (hbind (eval _) _) => apply preserves_eval_bind; intros ? ?
    | |- preserves _ (hbind _ _) => apply preserves_bind; [|intros ?]
    | |- preserves _ (addLog _ _) =>
        apply logsRender_addLog;
        first [reflexivity | eapply sourcePrintable_name; [|eassumption]; assumption]
    | |- preserves _ (updateAgentStatus _ _) => apply preserves_setAgents; by intros
    | |- preserves _ (setAgents _) => apply preserves_setAgents; by intros
    | |- preserves _ _ => apply preserves_write; by intros
    end.
Qed.

(** A callback writes statuses only. *)
Lemma timerCallback_shape cb w :
  fiveAgents (agents w) ->
  exists st1 st2 st3 st4 st5,
    agents (fst (timerCallback cb w)) =
    zip_with (fun a st => match a with Full r => Full (withStatus st r) | _ => a end)
      (agents w) [st1; st2; st3; st4; st5].
Proof.
  intros Hfive. destruct w as [l ? ? ? ? ? ? ? ? ? ? ? ?]. simpl in Hfive.
  roster_agents l Hfive.
  destruct cb as [p|p| |p|];
    unfold timerCallback, updateAgentStatus, setSimulationStep;
    rewrite ?hbind_write; unfold hbind, setAgents, eval; simpl;
    repeat case_match; simplify_eq; simpl;
    by eexists _, _, _, _, _.
Qed.

Lemma timerCallback_agentsRender cb w :
  fiveAgents (agents w) -> agentsRender (agents w) = true ->
  agentsRender (agents (fst (timerCallback cb w))) = true.
Proof.
  intros Hfive. destruct (timerCallback_shape cb w Hfive) as (st1 & st2 & st3 & st4 & st5 & ->).
  destruct (fiveAgents_inv _ Hfive) as (a1 & a2 & a3 & a4 & a5 & -> & _).
  unfold agentsRender. simpl. done.
Qed.

Lemma timerCallback_missionReport cb w :
  missionReport (fst (timerCallback cb w)) = missionReport w.
Proof.
  pose proof (timerCallback_besideTimeline cb w) as H.
  unfold besideTimeline in H. congruence.
Qed.

(** The render after a callback returns, when the one before it did. *)
Lemma timerCallback_renders cb w :
  match cb with
  | Step4 plan => sourcePrintable plan "0" = true /\ sourcePrintable plan "1" = true
  | _ => True
  end ->
  fiveAgents (agents w) -> renders w = true -> renders (fst (timerCallback cb w)) = true.
Proof.
  intros Hcb Hfive (Ha & Hl & Hr)%renders_iff. apply renders_iff.
  split; [by apply timerCallback_agentsRender|].
  split; [by apply timerCallback_logsRender|].
  by rewrite timerCallback_missionReport.
Qed.

Lemma falsy_name r name :
  truthy r = false -> Get r "name" = Some name -> renderable name = true.
Proof.
  destruct r as [| |b|n|s|xs|fields]; simpl; try done.
  - by intros _ [= <-].
  - by intros _ [= <-].
  - destruct s; [|done]. by intros _ [= <-].
Qed.

Lemma assignRole_name plan k i l l' :
  assignRole plan k i l = Some l' ->
  (sourcePrintable plan k = true /\ l' = l) \/
  exists name specialty task,
    (a ← planAgent plan k; Get a "name") = Some name /\
    l' = array_set i (withRole (l !! i) name specialty task) l.
Proof.
  unfold assignRole, sourcePrintable, planAgent. intros H.
  destruct (Get plan "agents") as [planAgents|]; [|done]. simpl in *.
  destruct (Get planAgents k) as [r|]; [|done]. simpl in *.
  destruct (truthy r) eqn:Hr.
  - destruct (Get r "name") as [name|]; [|done]. simpl in H.
    destruct (Get r "specialty") as [specialty|]; [|done]. simpl in H.
    destruct (Get r "task") as [task|]; [|done]. simpl in H.
    right. exists name, specialty, task. by simplify_eq.
  - left. split; [|by simplify_eq].
    destruct (Get r "name") as [name|] eqn:Hname; [|done]. by eapply falsy_name.
Qed.

(** When the plan has settled and the render after it returns, the names
    the fourth callback will log are ones React can show: they are the names
    the render showed for the second and the third agent, or those of plan
    entries that are not objects. *)
Lemma mapPlan_sources plan l l' :
  fiveAgents l -> mapPlan plan l = Some l' -> agentsRender l' = true ->
  sourcePrintable plan "0" = true /\ sourcePrintable plan "1" = true.
Proof.
  intros Hfive H Hr.
  destruct (fiveAgents_inv _ Hfive) as (a1 & a2 & a3 & a4 & a5 & -> & _).
  unfold mapPlan in H.
  change (spread [Full a1; Full a2; Full a3; Full a4; Full a5])
    with [Full a1; Full a2; Full a3; Full a4; Full a5] in H.
  destruct (assignRole plan "0" 1 _) as [l1|] eqn:E1; [|done]. simpl in H.
  destruct (assignRole plan "1" 2 l1) as [l2|] eqn:E2; [|done]. simpl in H.
  unfold agentsRender in Hr. rewrite !andb_true_iff in Hr. destruct Hr as [[_ Hr] _].
  apply assignRole_name in E1 as [[P0 ->]|(n1 & s1 & t1 & N0 & ->)];
    apply assignRole_name in E2 as [[P1 ->]|(n2 & s2 & t2 & N1 & ->)];
    apply assignRole_cases in H as [->|(n3 & s3 & t3 & ->)];
    simpl in Hr; rewrite !andb_true_iff in Hr;
    (split; first
       [ assumption
       | unfold sourcePrintable;
         match goal with
         | N : ?o = Some _ |- match ?o with _ => _ end = true => rewrite N; tauto
         end ]).
Qed.

Lemma printableSources_ext w w' :
  timers w' = timers w -> printableSources w -> printableSources w'.
Proof. unfold printableSources. by intros ->. Qed.

Lemma crashes_false w e :
  crashes w e = false ->
  renders (step w e) = true /\
  forall net mission rest,
    e = PlanSettles net -> planCalls w = mission :: rest ->
    is_Some (mapPlan (callGeminiOrchestrator mission net) (agents w)).
Proof.
  unfold crashes. intros [Hupdater Hrender]%orb_false_elim.
  split; [by apply negb_false_iff|].
  intros net mission rest -> Hcalls. rewrite Hcalls in Hupdater.
  by destruct (mapPlan _ _).
Qed.

(** The sources of the pending callbacks stay printable as long as the
    component is mounted. *)
Lemma printableSources_step w e :
  agentsKept w -> printableSources w -> crashes w e = false ->
  printableSources (step w e).
Proof.
  intros Hfive Hw [Hrender Hupdater]%crashes_false. destruct e; simpl in *.
  - done.
  - eapply printableSources_ext; [|done].
    pose proof (startSimulation_schedule w) as H. unfold schedule in H. congruence.
  - done.
  - eapply printableSources_ext; [|done].
    pose proof (generateReport_schedule w) as H. unfold schedule in H. congruence.
  - destruct (planCalls w) as [|mission rest] eqn:Hcalls; [done|].
    destruct (Hupdater net mission rest eq_refl eq_refl) as [l Hl].
    set (plan := callGeminiOrchestrator mission net) in *.
    destruct (startSimulation_resume_cases plan (with_planCalls rest w))
      as [[Hnone _]|(l' & Hl' & Hagents & Hc & _)].
    { simpl in Hnone. congruence. }
    simpl in Hl'. assert (l' = l) as -> by congruence.
    destruct (control_eq _ _ _ _ _ Hc) as (_ & _ & Htimers & _).
    apply renders_iff in Hrender as (Hr & _). rewrite Hagents in Hr.
    destruct (mapPlan_sources plan (agents w) l Hfive Hl Hr) as [H0 H1].
    unfold printableSources. rewrite Htimers.
    repeat (apply Forall_enqueue; [done|]). exact Hw.
  - destruct (summaryCalls w) as [|sent rest]; [done|].
    by destruct (callGeminiSummary sent net).
  - done.
  - destruct (timers w) as [|[due cb] rest] eqn:Htimers; [done|].
    destruct (due <=? now w); [|done].
    unfold printableSources. rewrite timerCallback_timers. simpl.
    unfold printableSources in Hw. rewrite Htimers in Hw. by inversion Hw.
Qed.

Lemma live_run trace w :
  agentsKept w -> printableSources w -> renders w = true -> live w trace = true ->
  printableSources (run w trace) /\ renders (run w trace) = true.
Proof.
  revert w. induction trace as [|e trace IH]; intros w Hfive Hsources Hrender Hlive; [done|].
  simpl in Hlive. apply andb_true_iff in Hlive as [Hevent%negb_true_iff Hrest].
  simpl. apply IH; [by apply agentsKept_step | by apply printableSources_step | | done].
  by apply crashes_false in Hevent as [? _].
Qed.

(** The render after a firing returns, when the one before it did. *)
Lemma fire_renders w :
  agentsKept w -> printableSources w -> renders w = true ->
  crashes w TimerFires = false /\ renders (step w TimerFires) = true /\
  printableSources (step w TimerFires).
Proof.
  intros Hfive Hsources Hrender.
  assert (renders (step w TimerFires) = true) as Hafter.
  { simpl. destruct (timers w) as [|[due cb] rest] eqn:Htimers; [done|].
    destruct (due <=? now w); [|done].
    unfold printableSources in Hsources. rewrite Htimers in Hsources.
    apply timerCallback_renders; [|done..].
    apply Forall_cons in Hsources as [Hcb _]. by destruct cb. }
  assert (crashes w TimerFires = false) as Hlive.
  { unfold crashes. by rewrite Hafter. }
  split; [done|]. split; [done|]. by apply printableSources_step.
Qed.

Lemma live_nothing w n :
  timers w = [] -> renders w = true -> live w (replicate n TimerFires) = true.
Proof.
  intros Htimers Hrender. induction n as [|n IH]; [done|].
  cbn [replicate live]. unfold crashes. cbn [step]. rewrite Htimers.
  by rewrite Hrender, IH.
Qed.

(** A run with [S n] timers left, all of them due, ends with them; the
    component stays mounted; further firings change nothing. *)
Lemma fire_pending anchor plan n :
  forall k w m,
    (k + S n = 5)%nat ->
    control w = (true, false, drop k (pendingSteps anchor plan), []) ->
    anchor + 11500 <= now w ->
    agentsKept w -> printableSources w -> renders w = true ->
    live w (replicate (S n + m) TimerFires) = true /\
    let w' := run w (replicate (S n + m) TimerFires) in
    isSimulating w' = false /\ simulationStep w' = 6%nat /\ timers w' = [] /\
    map statusOf (agents w') = replicate 5 (Some success).
Proof.
  induction n as [|n IH]; intros k w m Hk Hc Hnow Hfive Hsources Hrender;
    destruct (fire_renders w Hfive Hsources Hrender) as (Hlive & Hrender' & Hsources');
    cbn [Nat.add replicate live run foldl]; rewrite Hlive; cbn [negb andb].
  - assert (k = 4%nat) as -> by lia.
    destruct (fire_last w anchor plan Hc Hnow Hfive) as (Hc' & Hstage & Hstatus).
    destruct (control_eq _ _ _ _ _ Hc') as (Hsim & _ & Htimers & _).
    split; [by apply live_nothing|].
    change (foldl step ?w0 ?t) with (run w0 t). by rewrite fire_nothing.
  - destruct (fire_one w anchor plan k ltac:(lia) Hc Hnow) as [Hc' Hnow'].
    apply (IH (S k)); [lia | done | lia | by apply agentsKept_step | done | done].
Qed.

(** X5: a run in progress on a component that is still mounted ends, and
    the component stays mounted.  Take a trace from the mount on which no
    render has thrown and after which [isSimulating] is set (whatever else
    happened, a reset included).  Once 11.5 s have passed, the five firings
    of the event loop leave stage 6, no timer pending, [isSimulating]
    cleared and the five agents with status [success], and no render on the
    way throws. *)
Theorem run_in_progress_completes t0 trace :
  let w := run (mount t0) trace in
  live (mount t0) trace = true ->
  isSimulating w = true ->
  live w (Elapse 11500 :: fireAll) = true /\
  let w' := run w (Elapse 11500 :: fireAll) in
  isSimulating w' = false /\ simulationStep w' = 6%nat /\ timers w' = [] /\
  map statusOf (agents w') = replicate 5 (Some success).
Proof.
  intros w Hlive Hsim.
  pose proof (coherent_reachable t0 trace) as Hcoh. fold w in Hcoh.
  pose proof (dueSoon_reachable t0 trace) as Hdue. fold w in Hdue.
  pose proof (agentsKept_reachable t0 trace) as Hfive. fold w in Hfive.
  destruct (live_run trace (mount t0)) as [Hsources Hrender];
    [apply agentsKept_resetSimulation | by constructor | done | done |].
  fold w in Hsources, Hrender.
  unfold coherent in Hcoh. rewrite Hsim in Hcoh.
  destruct Hcoh as (Horch & Hcalls & anchor & plan & k & Hk & Htimers).
  assert (anchor <= now w) as Hanchor.
  { unfold dueSoon in Hdue. rewrite Htimers in Hdue.
    assert ((anchor + 11500, Step5) ∈ drop k (pendingSteps anchor plan)) as Hin.
    { apply list_elem_of_In.
      destruct k as [|[|[|[|[|k]]]]]; [..|lia]; simpl; tauto. }
    rewrite Forall_forall in Hdue. specialize (Hdue _ Hin). simpl in Hdue. lia. }
  cbn [live run foldl]. set (w1 := step w (Elapse 11500)).
  assert (control w1 = (true, false, drop k (pendingSteps anchor plan), [])) as Hc1.
  { unfold control, w1. simpl. by rewrite Hsim, Horch, Hcalls, Htimers. }
  assert (anchor + 11500 <= now w1) as Hn1 by (unfold w1; simpl; lia).
  assert (agentsKept w1) as Hf1 by done.
  assert (printableSources w1) as Hs1 by done.
  assert (renders w1 = true) as Hr1 by done.
  assert (crashes w (Elapse 11500) = false) as ->
    by (unfold crashes; fold w1; by rewrite Hr1).
  clearbody w1. clear dependent w. cbn [negb andb]. unfold fireAll.
  destruct k as [|[|[|[|[|k]]]]]; [..|lia].
  - by apply (fire_pending anchor plan 4 0 w1 0).
  - by apply (fire_pending anchor plan 3 1 w1 1).
  - by apply (fire_pending anchor plan 2 2 w1 2).
  - by apply (fire_pending anchor plan 1 3 w1 3).
  - by apply (fire_pending anchor plan 0 4 w1 4).
Qed.

End Properties.

(** * The properties at concrete inputs *)

(** C1 at the sample run: its last timer is the completion callback, due at
    11500, and firing it leaves stage 6 and five agents with [success]. *)
Lemma completion_marks_all_success_witness :
  timers (@run keylessRuntime (@mount keylessRuntime 0) sampleRunBeforeCompletion)
    = [(11500, Step5)] /\
  simulationStep
    (@step keylessRuntime
       (@run keylessRuntime (@mount keylessRuntime 0) sampleRunBeforeCompletion)
       TimerFires) = 6%nat /\
  map statusOf
    (agents
       (@step keylessRuntime
          (@run keylessRuntime (@mount keylessRuntime 0) sampleRunBeforeCompletion)
          TimerFires)) = replicate 5 (Some success).
Proof.
  split; [by vm_compute|].
  pose proof (@completion_marks_all_success keylessRuntime 0 sampleRunBeforeCompletion
                11500 []) as H.
  cbv zeta in H.
  destruct H as (Hstage & _ & Hstatus); [by vm_compute | by vm_compute |].
  by split.
Defined.

(** C2 in the middle of a run: the third callback, which writes the
    statuses of four agents, keeps the roster. *)
Lemma agents_roster_invariant_witness :
  fiveAgents
    (agents
       (@step sampleRuntime
          (@run sampleRuntime (@mount sampleRuntime 0)
             [ClickStart; PlanSettles NetworkError; Elapse 5500; TimerFires; TimerFires])
          TimerFires)).
Proof.
  apply (proj1 (proj2 (@agents_roster_invariant sampleRuntime))).
  vm_compute. reflexivity.
Defined.

(** C3 at the mounted component: nine appends leave eight entries. *)
Lemma log_capped_at_eight_witness :
  (length (logs (@addLogs sampleRuntime
                   (replicate 9 (JStr "Mesh", "Task protocols distributed to agents."%string))
                   (@mount sampleRuntime 0))) <= 8)%nat.
Proof.
  apply (proj1 (proj2 (@log_capped_at_eight sampleRuntime))).
  left. discriminate.
Defined.

(** C4 at a response with status 503, settling the call of a run started
    on the mounted component: the provider returns the fallback and the
    agents 2, 3 and 4 get its roles. *)
Lemma plan_failure_gives_fallback_witness :
  @callGeminiOrchestrator sampleRuntime "Plan a 3-day trip to Tokyo"
    (Response false (Some (envelope (JStr emptyPlanText)))) = fallbackPlan /\
  exists a2 a3 a4,
    agents (@step sampleRuntime (@step sampleRuntime (@mount sampleRuntime 0) ClickStart)
              (PlanSettles (Response false (Some (envelope (JStr emptyPlanText))))))
      !! 1%nat = Some (Full a2) /\
    agents (@step sampleRuntime (@step sampleRuntime (@mount sampleRuntime 0) ClickStart)
              (PlanSettles (Response false (Some (envelope (JStr emptyPlanText))))))
      !! 2%nat = Some (Full a3) /\
    agents (@step sampleRuntime (@step sampleRuntime (@mount sampleRuntime 0) ClickStart)
              (PlanSettles (Response false (Some (envelope (JStr emptyPlanText))))))
      !! 3%nat = Some (Full a4) /\
    a_id a2 = "2"%string /\ a_id a3 = "3"%string /\ a_id a4 = "4"%string /\
    (a_name a2, a_specialty a2, a_currentTask a2) =
      (JStr "Logic Bot", JStr "Planning", JStr "Analyzing requirements") /\
    (a_name a3, a_specialty a3, a_currentTask a3) =
      (JStr "Resource Bot", JStr "Logistics", JStr "Gathering resources") /\
    (a_name a4, a_specialty a4, a_currentTask a4) =
      (JStr "Review Bot", JStr "Quality Control", JStr "Verifying output").
Proof.
  destruct (@plan_failure_gives_fallback sampleRuntime "Plan a 3-day trip to Tokyo"
              (Response false (Some (envelope (JStr emptyPlanText))))
              (fails_by_status _)) as [Hplan Hagents].
  split; [exact Hplan|].
  apply (Hagents (@step sampleRuntime (@mount sampleRuntime 0) ClickStart) []);
    reflexivity.
Defined.

(** C5 at a run that has just started: the stage is 1 and a second click on
    start changes nothing. *)
Lemma start_ignored_while_busy_witness :
  @step sampleRuntime
    (@run sampleRuntime (@mount sampleRuntime 0) [ClickStart; PlanSettles NetworkError])
    ClickStart =
  @run sampleRuntime (@mount sampleRuntime 0) [ClickStart; PlanSettles NetworkError].
Proof.
  apply (proj2 (@start_ignored_while_busy sampleRuntime) 0
           [ClickStart; PlanSettles NetworkError]).
  vm_compute. split; apply Nat.leb_le; reflexivity.
Defined.

(** C7 at the run on the fallback plan: its first timer, due at 1500, is
    at the head of the queue when the reset comes, and sets stage 2 when it
    fires after the reset. *)
Lemma reset_does_not_cancel_timers_witness :
  simulationStep
    (@step sampleRuntime
       (@step sampleRuntime
          (@step sampleRuntime
             (@run sampleRuntime (@mount sampleRuntime 0)
                [ClickStart; PlanSettles NetworkError])
             ClickReset)
          (Elapse 1500))
       TimerFires) = 2%nat.
Proof.
  apply (proj1 (proj2 (proj2 (proj2
           (proj1 (proj2 (@reset_does_not_cancel_timers sampleRuntime))
              (@run sampleRuntime (@mount sampleRuntime 0)
                 [ClickStart; PlanSettles NetworkError])
              1500 (Step1 fallbackPlan) (drop 1 (pendingSteps 0 fallbackPlan))
              1500%N eq_refl ltac:(vm_compute; discriminate)))))).
Defined.

(** C10 at the mounted component: the update of agent 2 gives the second
    record the status and leaves its other fields as they were. *)
Lemma updateAgentStatus_frame_witness :
  exists a',
    agents (fst (updateAgentStatus "2" working (@mount sampleRuntime 0))) !! 1%nat
      = Some (Full a') /\
    a_status a' = working /\
    sameButStatus
      (mkAgent "2" (JStr "Specialist A") Specialist (CENTER_X - 100) (CENTER_Y - 80) idle
         (JStr "Pending...") (JStr "Standby")) a'.
Proof.
  apply (proj1 (proj2 (proj2 (proj2
           (@updateAgentStatus_frame (@mount sampleRuntime 0) "2" working))))).
  - intros Ha. apply list_elem_of_In in Ha. simpl in Ha.
    repeat destruct Ha as [Ha|Ha]; done.
  - reflexivity.
  - reflexivity.
Defined.

(** C6 fails as stated: with a credential, a success response whose text is
    [emptyPlanText] makes the provider return a plan with no role record at
    all, which is not the fallback either. *)
Lemma plan_without_three_roles :
  @callGeminiOrchestrator sampleRuntime "Plan a 3-day trip to Tokyo"
    (Response true (Some (envelope (JStr emptyPlanText))))
    = JObj [("agents"%string, JArr [])] /\
  threeRoles
    (@callGeminiOrchestrator sampleRuntime "Plan a 3-day trip to Tokyo"
       (Response true (Some (envelope (JStr emptyPlanText))))) = false /\
  @callGeminiOrchestrator sampleRuntime "Plan a 3-day trip to Tokyo"
    (Response true (Some (envelope (JStr emptyPlanText)))) <> fallbackPlan.
Proof. by vm_compute. Qed.

(** C8 fails as stated: the message of the entry that reset leaves is not
    the text System Online... *)
Lemma reset_message_is_not_system_online :
  map l_message (logs (@step sampleRuntime (@mount sampleRuntime 0) ClickReset))
    = ["Agentic Mesh Online. Enter a mission to begin."%string] /\
  map l_message (logs (@step sampleRuntime (@mount sampleRuntime 0) ClickReset))
    <> ["System Online..."%string].
Proof. by vm_compute. Qed.

(** C9 is not what the code does: [callGeminiSummary] never looks at
    [response.ok], so a response with status 503 whose body has the shape
    of an answer is returned as the summary, where the plan provider falls
    back; and a body whose first part has no text gives [undefined]. *)
Theorem summary_ignores_response_status :
  @callGeminiSummary sampleRuntime []
    (Response false (Some (envelope (JStr "Service unavailable"))))
    = Some (JStr "Service unavailable") /\
  @callGeminiOrchestrator sampleRuntime "Plan a 3-day trip to Tokyo"
    (Response false (Some (envelope (JStr "Service unavailable")))) = fallbackPlan /\
  @callGeminiSummary sampleRuntime []
    (Response true
       (Some (JObj [("candidates"%string,
                     JArr [JObj [("content"%string,
                                  JObj [("parts"%string, JArr [JObj []])])]])])))
    = Some JUndefined.
Proof. by vm_compute. Qed.

(** The scenario of the specification: the default mission with no
    credential runs on the fallback plan; 11.5 s after the plan settles all
    agents show [success] and the newest log entry reports completion; the
    report asked for afterwards is the fallback sentence. *)
Example tokyo_scenario :
  map statusOf
    (agents (@run keylessRuntime (@mount keylessRuntime 0) sampleRunAndReport))
    = replicate 5 (Some success) /\
  head (map l_message
          (logs (@run keylessRuntime (@mount keylessRuntime 0) sampleRunAndReport)))
    = Some "Workflow completed successfully. Results aggregated."%string /\
  missionReport (@run keylessRuntime (@mount keylessRuntime 0) sampleRunAndReport)
    = JStr fallbackSummary.
Proof. by vm_compute. Qed.

(** X3 at a plan with no agent: the second callback throws on the missing
    specialty and leaves the log of the mounted component as it was. *)
Lemma timerCallback_effects_witness :
  logs (fst (@timerCallback sampleRuntime (Step2 (JObj [("agents"%string, JArr [])]))
               (@mount sampleRuntime 0)))
  = logs (@mount sampleRuntime 0).
Proof.
  apply (@timerCallback_effects sampleRuntime (Step2 (JObj [("agents"%string, JArr [])]))
           (@mount sampleRuntime 0)).
  - discriminate.
  - reflexivity.
Defined.

(** X4 in the middle of the sample run: timers are pending, so
    [isSimulating] is set. *)
Lemma runs_never_overlap_witness :
  isSimulating
    (@run keylessRuntime (@mount keylessRuntime 0) sampleRunBeforeCompletion) = true.
Proof.
  apply (proj1 (proj2 (@runs_never_overlap keylessRuntime 0 sampleRunBeforeCompletion))).
  vm_compute. discriminate.
Defined.

(** X5 at a run on a plan without roles that was reset right after the plan
    had settled: no render throws on the way there, and the run ends. *)
Lemma run_in_progress_completes_witness :
  @live sampleRuntime
    (@run sampleRuntime (@mount sampleRuntime 0)
       [ClickStart; PlanSettles (Response true (Some (envelope (JStr emptyPlanText))));
        ClickReset])
    (Elapse 11500 :: fireAll) = true /\
  isSimulating
    (@run sampleRuntime
       (@run sampleRuntime (@mount sampleRuntime 0)
          [ClickStart; PlanSettles (Response true (Some (envelope (JStr emptyPlanText))));
           ClickReset])
       (Elapse 11500 :: fireAll)) = false /\
  simulationStep
    (@run sampleRuntime
       (@run sampleRuntime (@mount sampleRuntime 0)
          [ClickStart; PlanSettles (Response true (Some (envelope (JStr emptyPlanText))));
           ClickReset])
       (Elapse 11500 :: fireAll)) = 6%nat /\
  timers
    (@run sampleRuntime
       (@run sampleRuntime (@mount sampleRuntime 0)
          [ClickStart; PlanSettles (Response true (Some (envelope (JStr emptyPlanText))));
           ClickReset])
       (Elapse 11500 :: fireAll)) = [] /\
  map statusOf
    (agents
       (@run sampleRuntime
          (@run sampleRuntime (@mount sampleRuntime 0)
             [ClickStart; PlanSettles (Response true (Some (envelope (JStr emptyPlanText))));
              ClickReset])
          (Elapse 11500 :: fireAll))) = replicate 5 (Some success).
Proof.
  apply (@run_in_progress_completes sampleRuntime 0
           [ClickStart; PlanSettles (Response true (Some (envelope (JStr emptyPlanText))));
            ClickReset]).
  - vm_compute. reflexivity.
  - vm_compute. reflexivity.
Defined.

(** X6 at a run whose plan has not settled yet. *)
Lemma reset_keeps_run_state_witness :
  @step sampleRuntime
    (@step sampleRuntime (@step sampleRuntime (@mount sampleRuntime 0) ClickStart) ClickReset)
    ClickStart
  = @step sampleRuntime (@step sampleRuntime (@mount sampleRuntime 0) ClickStart) ClickReset.
Proof.
  apply (@reset_keeps_run_state sampleRuntime
           (@step sampleRuntime (@mount sampleRuntime 0) ClickStart)).
  reflexivity.
Defined.

(** X7 at the fallback plan on the agents of the template. *)
Lemma mapPlan_frame_witness :
  exists b2 b3 b4,
    [ Full (mkAgent "1" (JStr "Orchestrator") Orchestrator 400 250 idle
              (JStr "Coordination") (JStr "Awaiting Mission"));
      Full (mkAgent "2" (JStr "Logic Bot") Specialist 300 170 idle
              (JStr "Planning") (JStr "Analyzing requirements"));
      Full (mkAgent "3" (JStr "Resource Bot") Specialist 500 170 idle
              (JStr "Logistics") (JStr "Gathering resources"));
      Full (mkAgent "4" (JStr "Review Bot") Worker 280 310 idle
              (JStr "Quality Control") (JStr "Verifying output"));
      Full (mkAgent "5" (JStr "Support Bot") Worker 520 310 idle
              (JStr "Utilities") (JStr "Standby")) ]
    = [ Full (mkAgent "1" (JStr "Orchestrator") Orchestrator 400 250 idle
                (JStr "Coordination") (JStr "Awaiting Mission"));
        Full b2; Full b3; Full b4;
        Full (mkAgent "5" (JStr "Support Bot") Worker 520 310 idle
                (JStr "Utilities") (JStr "Standby")) ] /\
    sameButRole (mkAgent "2" (JStr "Specialist A") Specialist 300 170 idle
                   (JStr "Pending...") (JStr "Standby")) b2 /\
    sameButRole (mkAgent "3" (JStr "Specialist B") Specialist 500 170 idle
                   (JStr "Pending...") (JStr "Standby")) b3 /\
    sameButRole (mkAgent "4" (JStr "Worker A") Worker 280 310 idle
                   (JStr "Pending...") (JStr "Standby")) b4.
Proof.
  apply (mapPlan_frame fallbackPlan). reflexivity.
Defined.

(** X8 at the plan with an empty array of agents, and at the plan [null]. *)
Lemma mapPlan_guards_witness :
  mapPlan (JObj [("agents"%string, JArr [])]) initialAgents = Some initialAgents /\
  mapPlan JNull initialAgents = None.
Proof.
  split.
  - apply (proj2 (mapPlan_guards (JObj [("agents"%string, JArr [])]) initialAgents)
             JUndefined JUndefined JUndefined); reflexivity.
  - apply (proj1 (mapPlan_guards JNull initialAgents)). left. reflexivity.
Defined.

(** X9 at the mounted component and a plan of three roles: the fourth
    callback returns normally. *)
Lemma well_formed_plan_runs_witness :
  snd (@timerCallback sampleRuntime
         (Step4 (rolePlan (planRecord "Scout" "Maps" "Finding routes")
                          (planRecord "Cook" "Food" "Booking tables")
                          (planRecord "Guide" "Sights" "Buying tickets")))
         (@mount sampleRuntime 0)) = Some tt.
Proof.
  apply (@well_formed_plan_runs sampleRuntime "Scout" "Maps" "Finding routes"
           "Cook" "Food" "Booking tables" "Guide" "Sights" "Buying tickets"
           (@mount sampleRuntime 0)).
  reflexivity.
Defined.

(** X10 at the mounted component: the third callback. *)
Lemma status_timeline_witness :
  map statusOf (agents (fst (@timerCallback sampleRuntime Step3 (@mount sampleRuntime 0))))
  = [Some communicating; Some working; Some working; Some working; Some idle].
Proof.
  apply (@status_timeline sampleRuntime JNull (@mount sampleRuntime 0)).
  reflexivity.
Defined.

(** X11 at the log of the mounted component, with no credential. *)
Lemma summary_falls_back_witness :
  @callGeminiSummary keylessRuntime (logs (@mount keylessRuntime 0))
    (Response true (Some (envelope (JStr "All went well."))))
  = Some (JStr fallbackSummary).
Proof.
  apply (@summary_falls_back keylessRuntime).
  - repeat constructor. by eexists.
  - left. reflexivity.
Defined.

(** X12 at an answer with two candidates whose first text is
    [emptyPlanText]. *)
Lemma providers_read_first_part_witness :
  @callGeminiOrchestrator sampleRuntime "Plan a 3-day trip to Tokyo"
    (Response true
       (Some (answer (JStr emptyPlanText) [] [("role"%string, JStr "model")] [] []
                [] [JNull])))
  = JObj [("agents"%string, JArr [])].
Proof.
  apply (@providers_read_first_part sampleRuntime "Plan a 3-day trip to Tokyo"
           (logs (@mount sampleRuntime 0))).
  - discriminate.
  - reflexivity.
  - repeat constructor. by eexists.
Defined.

(** X13 at a session in which the user clicks the report button before any
    run: the page does not offer it, and no request is in flight. *)
Lemma page_session_is_orderly_witness :
  summaryCalls (@pageRun sampleRuntime (@mount sampleRuntime 0) [ClickReport; ClickReport]) = [].
Proof.
  apply (@page_session_is_orderly sampleRuntime 0 [ClickReport; ClickReport]).
  reflexivity.
Defined.

(** X14 at the sample run completed, a report asked for, and no
    credential. *)
Lemma report_lands_after_reset_witness :
  missionReport
    (@step keylessRuntime
       (@step keylessRuntime
          (@run keylessRuntime (@mount keylessRuntime 0)
             (sampleRunBeforeCompletion ++ [TimerFires; ClickReport]))
          ClickReset)
       (SummarySettles NetworkError))
  = JStr fallbackSummary.
Proof.
  refine (proj1 (proj2 (proj2 (@report_lands_after_reset keylessRuntime
           (@run keylessRuntime (@mount keylessRuntime 0)
              (sampleRunBeforeCompletion ++ [TimerFires; ClickReport]))
           (logs (@run keylessRuntime (@mount keylessRuntime 0)
                    (sampleRunBeforeCompletion ++ [TimerFires]))) []
           NetworkError (JStr fallbackSummary) _ _)))).
  - by vm_compute.
  - by vm_compute.
Defined.

(** X15 at the mounted component. *)
Lemma start_when_idle_witness :
  planCalls (@step sampleRuntime (@mount sampleRuntime 0) ClickStart)
  = ["Plan a 3-day trip to Tokyo"%string].
Proof.
  apply (@start_when_idle sampleRuntime (@mount sampleRuntime 0)); reflexivity.
Defined.
